(** * Sync core of the todo application: a shallow embedding

    The development follows the TypeScript sources of the repository:
    - [services/realtimeService.ts]  (class [RealtimeService]),
    - [contexts/RealtimeContext.tsx] (component [RealtimeProvider]),
    - [contexts/OfflineContext.tsx]  (component [OfflineProvider]),
    - [features/todos/pages/TodoList.tsx] (component [TodoList]),
    - [services/authService.ts]      (class [AuthService]).

    React state is modelled by explicit state passing: a [setX(prev => e)]
    call becomes the function [prev => e]; timers ([setTimeout],
    [setInterval]) become entries of a timer queue over a virtual clock;
    the network is an explicit outcome handed to the code that awaits it,
    and what the query client reads of the browser (online manager,
    window focus) is handed to the calls that read it. *)

From Stdlib Require Import ZArith SpecFloat Sorted.
From stdpp Require Import gmap strings list pretty.

Local Open Scope Z_scope.

(** ** JavaScript numbers

    A JS [number] is an IEEE 754 binary64 value; the arithmetic of
    [Stdlib.Floats.SpecFloat] at precision 53 and maximal exponent 1024 is
    that arithmetic (round to nearest, ties to even). *)
Module JS.

Definition prec : Z := 53.
Definition emax : Z := 1024.

Abbreviation number := spec_float.

(** The double nearest to an integer (exact below 2^53). *)
Definition of_Z (z : Z) : number := binary_normalize prec emax z 0 false.

Definition div (x y : number) : number := SFdiv prec emax x y.
Definition mul (x y : number) : number := SFmul prec emax x y.

(** [Math.round x]: the integer nearest to [x], halves going up, that is
    the floor of [x + 1/2] computed exactly; NaN and the infinities are
    returned as they are, and a result of zero keeps the sign of [x]. *)
Definition round_half_up (m e : Z) : Z :=
  if 0 <=? e then m * 2 ^ e
  else (2 * m + 2 ^ (- e)) / 2 ^ (- e + 1).

Definition Math_round (x : number) : number :=
  match x with
  | S754_finite s m e =>
      let r := round_half_up (if s then Z.neg m else Z.pos m) e in
      if r =? 0 then S754_zero s else binary_normalize prec emax r 0 false
  | _ => x
  end.

(** [n.toString()] for an integral number below 2^53 (a reading of
    [Date.now()], a status code): its decimal digits. *)
Definition toString (n : Z) : string := pretty n.

(** [x.toString()] for any number (Number::toString, radix 10). For a
    finite [x > 0] the digits are those of integers [n], [k], [s] with
    [k >= 1] and [10^(k-1) <= s < 10^k] such that [s * 10^(n-k)] rounds to
    [x], with [k] as small as possible and, among these, [s * 10^(n-k)]
    closest to [x] (the even [s] at a tie).

    The reals that round to [x = m * 2^e] lie between the midpoints to its
    two neighbours, the midpoints included when [m] is even; the lower
    neighbour is half as far when [m] is a power of two. A candidate is
    held as (distance to [x], [s], [n]), all values scaled to integers. *)
Definition better (c d : Z * Z * Z) : bool :=
  let '(dc, sc, _) := c in
  let '(dd, sd, _) := d in
  (dc <? dd) || ((dc =? dd) && Z.even sc && negb (Z.even sd)).

Definition closest (l : list (Z * Z * Z)) : option (Z * Z * Z) :=
  foldr (fun c acc =>
           match acc with
           | None => Some c
           | Some d => if better c d then Some c else Some d
           end)
        None l.

(** The decimals of [k] digits that round to [m * 2^e]: for each [n]
    around the decimal magnitude of the number, the two multiples of
    [10^(n-k)] next to it, when they have [k] digits and round to it. *)
Definition candidates (m : positive) (e : Z) (k : Z) : list (Z * Z * Z) :=
  let mz := Z.pos m in
  let delta := if (mz =? 2 ^ 52) && (-1074 <? e) then 1 else 2 in
  let est := (Z.log2 mz + e) * 30103 / 100000 in
  let a := Z.max 0 (20 - est) in
  let b := Z.max 0 (2 - e) in
  let scale := 2 ^ (e - 2 + b) * 10 ^ a in
  let x := 4 * mz * scale in
  let lo := (4 * mz - delta) * scale in
  let hi := (4 * mz + 2) * scale in
  let rounds_to_x v :=
    if Z.even mz then (lo <=? v) && (v <=? hi) else (lo <? v) && (v <? hi) in
  flat_map
    (fun n =>
       let weight := 10 ^ (n - k + a) * 2 ^ b in
       let s0 := x / weight in
       map (fun s => (Z.abs (s * weight - x), s, n))
           (List.filter
              (fun s => (10 ^ (k - 1) <=? s) && (s <? 10 ^ k)
                        && rounds_to_x (s * weight))
              [s0; s0 + 1]))
    (seqZ (est - 2) 7).

(** The least [k] from [k] on that has a candidate, with the closest of
    its candidates: ([s], [k], [n]). Seventeen digits tell any two doubles
    apart. *)
Fixpoint shortest (fuel : nat) (k : Z) (m : positive) (e : Z)
    : option (Z * Z * Z) :=
  match fuel with
  | O => None
  | S fuel' =>
      match closest (candidates m e k) with
      | Some (_, s, n) => Some (s, k, n)
      | None => shortest fuel' (k + 1) m e
      end
  end.

Definition zeros (n : Z) : string :=
  Z.iter n (fun z => "0" +:+ z) EmptyString.

(** The four layouts of Number::toString: an integer padded with zeros, a
    decimal point inside the digits, a fraction below one, and the
    exponent form, from 1e21 on and below 1e-6. *)
Definition layout (s k n : Z) : string :=
  let d := pretty s in
  let first i := String.substring 0 (Z.to_nat i) d in
  let rest i := String.substring (Z.to_nat i) (String.length d - Z.to_nat i) d in
  if (k <=? n) && (n <=? 21) then d +:+ zeros (n - k)
  else if (0 <? n) && (n <=? 21) then first n +:+ "." +:+ rest n
  else if (-6 <? n) && (n <=? 0) then "0." +:+ zeros (- n) +:+ d
  else
    (if k =? 1 then d else first 1 +:+ "." +:+ rest 1)
    +:+ "e" +:+ (if 0 <=? n - 1 then "+" else "-") +:+ pretty (Z.abs (n - 1)).

Definition Number_toString (x : number) : string :=
  match x with
  | S754_nan => "NaN"
  | S754_zero _ => "0"
  | S754_infinity s => if s then "-Infinity" else "Infinity"
  | S754_finite sign m e =>
      (if sign then "-" else EmptyString)
      +:+ match shortest 17 1 m e with
          | Some (s, k, n) => layout s k n
          | None => EmptyString
          end
  end.

(** [Math.ceil x]: the least integer not below [x]; NaN and the infinities
    are returned as they are, and a result of zero keeps the sign of [x]. *)
Definition ceiling (m e : Z) : Z :=
  if 0 <=? e then m * 2 ^ e
  else - ((- m) / 2 ^ (- e)).

Definition Math_ceil (x : number) : number :=
  match x with
  | S754_finite s m e =>
      let r := ceiling (if s then Z.neg m else Z.pos m) e in
      if r =? 0 then S754_zero s else binary_normalize prec emax r 0 false
  | _ => x
  end.

(** Whether two numbers are the same value with the same representation. *)
Definition same (x y : number) : bool :=
  match x, y with
  | S754_zero a, S754_zero b => Bool.eqb a b
  | S754_infinity a, S754_infinity b => Bool.eqb a b
  | S754_nan, S754_nan => true
  | S754_finite a m e, S754_finite b m' e' =>
      Bool.eqb a b && Pos.eqb m m' && Z.eqb e e'
  | _, _ => false
  end.

End JS.

(** ** The todo record and the statistics of [TodoList] *)
Module Todos.

Inductive SyncStatus := synced | pending | conflict.

(** [interface Todo]; the optional fields are options. *)
Record Todo := mkTodo {
  id : Z;
  todo : string;
  completed : bool;
  userId : Z;
  createdAt : option string;
  updatedAt : option string;
  lastModified : option Z;
  syncStatus : option SyncStatus;
}.

(** [interface TodoStats]. The three counts are array lengths; the rate
    is the number [Math.round] returns. *)
Record TodoStats := mkStats {
  st_total : nat;
  st_completed : nat;
  st_pending : nat;
  st_completionRate : JS.number;
}.

#[global] Instance SyncStatus_eq_dec : EqDecision SyncStatus.
Proof. solve_decision. Defined.

#[global] Instance Todo_eq_dec : EqDecision Todo.
Proof. solve_decision. Defined.

Definition count_of (p : Todo -> bool) (todosData : list Todo) : nat :=
  length (List.filter p todosData).

(** [const stats: TodoStats = { ... }]. *)
Definition stats (todosData : list Todo) : TodoStats :=
  {| st_total := length todosData;
     st_completed := count_of completed todosData;
     st_pending := count_of (fun t => negb (completed t)) todosData;
     st_completionRate :=
       if (0 <? length todosData)%nat
       then JS.Math_round
              (JS.mul
                 (JS.div (JS.of_Z (Z.of_nat (count_of completed todosData)))
                         (JS.of_Z (Z.of_nat (length todosData))))
                 (JS.of_Z 100))
       else JS.of_Z 0 |}.

(** The integer nearest to the exact quotient [100 * c / n], halves going
    up: what [round(100 * completed / total)] denotes over the rationals. *)
Definition exact_rate (c n : nat) : Z :=
  (200 * Z.of_nat c + Z.of_nat n) / (2 * Z.of_nat n).

End Todos.

(** ** Payloads exchanged with the realtime server
    ([TodoUpdate], [UserPresence], [CursorPosition] of realtimeService.ts) *)
Module Wire.
Import Todos.

(** The [todo: any] field: the mutations pass a whole todo, the delete
    path passes [{ id }]. *)
Inductive Payload :=
| whole (t : Todo)
| only_id (i : Z).

Definition payload_id (p : Payload) : Z :=
  match p with
  | whole t => id t
  | only_id i => i
  end.

Inductive UpdateType := ty_create | ty_update | ty_delete | ty_toggle.

Record TodoUpdate := mkUpdate {
  upd_type : UpdateType;
  upd_todo : Payload;
  upd_userId : string;
  upd_timestamp : Z;
}.

#[global] Instance Payload_eq_dec : EqDecision Payload.
Proof. solve_decision. Defined.

#[global] Instance UpdateType_eq_dec : EqDecision UpdateType.
Proof. solve_decision. Defined.

#[global] Instance TodoUpdate_eq_dec : EqDecision TodoUpdate.
Proof. solve_decision. Defined.

Inductive PresenceStatus := online | away | offline.

Record UserPresence := mkPresence {
  up_userId : string;
  up_userName : string;
  up_lastSeen : Z;
  up_status : PresenceStatus;
}.

Record CursorPosition := mkCursor {
  cur_userId : string;
  cur_userName : string;
  cur_x : Z;
  cur_y : Z;
  cur_todoId : option Z;
}.

(** The [data: any] handed to local listeners, by the shapes the service
    emits. *)
Inductive EventData :=
| DConnection (status : string) (detail : option string)
| DTodo (u : TodoUpdate)
| DPresence (p : UserPresence)
| DPresenceList (l : list UserPresence)
| DCursor (c : CursorPosition)
| DTyping (userId : string) (userName : option string) (todoId : option Z).

End Wire.

(** ** The offline queue of [OfflineProvider] (contexts/OfflineContext.tsx) *)
Module Offline.
Import Todos Wire.

Inductive Action := act_create | act_update | act_delete.

(** An element of [syncQueue: any[]]. The callers pass [{ action, data }];
    [addToSyncQueue] spreads the item and sets [id]. *)
Record QueueItem := mkItem {
  qi_action : Action;
  qi_data : Payload;
  qi_id : option string;
}.

(** [setSyncQueue(prev => [...prev, { ...item, id: Date.now().toString() }])],
    where [now] is what [Date.now()] returns. *)
Definition addToSyncQueue (now : Z) (item : QueueItem)
    (prev : list QueueItem) : list QueueItem :=
  prev ++ [ {| qi_action := qi_action item;
               qi_data := qi_data item;
               qi_id := Some (JS.toString now) |} ].

Definition has_other_id (i : string) (item : QueueItem) : bool :=
  bool_decide (qi_id item ≠ Some i).

(** [setSyncQueue(prev => prev.filter(item => item.id !== id))]. *)
Definition removeFromSyncQueue (i : string)
    (prev : list QueueItem) : list QueueItem :=
  List.filter (has_other_id i) prev.

(** A run of [addToSyncQueue] calls, each with its clock reading. *)
Definition enqueueAll (ops : list (Z * QueueItem))
    (prev : list QueueItem) : list QueueItem :=
  foldl (fun q op => addToSyncQueue (fst op) (snd op) q) prev ops.

(** What an entry asks for, without the identifier the queue gave it. *)
Definition intent (item : QueueItem) : Action * Payload :=
  (qi_action item, qi_data item).

(** The entries of a queue that would update (or toggle: the page queues a
    toggle as an [update]) the todo [target]. *)
Definition is_update_of (target : Z) (item : QueueItem) : bool :=
  match qi_action item with
  | act_update => bool_decide (payload_id (qi_data item) = target)
  | _ => false
  end.

(** The state of [OfflineProvider]: [isOffline] and [syncQueue]. *)
Record OfflineState := mkOffline {
  off_isOffline : bool;
  off_syncQueue : list QueueItem;
}.

(** [useState(!navigator.onLine)], [useState([])] *)
Definition offline_initial (onLine : bool) : OfflineState :=
  {| off_isOffline := negb onLine; off_syncQueue := [] |}.

(** What can happen to the provider: the window's ['online'] and
    ['offline'] events, and calls of the three functions of its context. *)
Inductive OfflineOp :=
| OpOnline
| OpOffline
| OpAdd (now : Z) (item : QueueItem)
| OpRemove (i : string)
| OpProcess.

(** [handleOnline], [handleOffline], [addToSyncQueue],
    [removeFromSyncQueue], and [processSyncQueue], which logs the queue and
    does nothing else. *)
Definition offline_step (st : OfflineState) (op : OfflineOp) : OfflineState :=
  match op with
  | OpOnline => {| off_isOffline := false; off_syncQueue := off_syncQueue st |}
  | OpOffline => {| off_isOffline := true; off_syncQueue := off_syncQueue st |}
  | OpAdd now item =>
      {| off_isOffline := off_isOffline st;
         off_syncQueue := addToSyncQueue now item (off_syncQueue st) |}
  | OpRemove i =>
      {| off_isOffline := off_isOffline st;
         off_syncQueue := removeFromSyncQueue i (off_syncQueue st) |}
  | OpProcess => st
  end.

Definition offline_run (ops : list OfflineOp) (st : OfflineState) : OfflineState :=
  foldl offline_step st ops.

(** The items a run hands to [addToSyncQueue], in order. *)
Definition added (ops : list OfflineOp) : list QueueItem :=
  omap (fun op => match op with OpAdd _ item => Some item | _ => None end) ops.

Definition is_remove (op : OfflineOp) : bool :=
  match op with OpRemove _ => true | _ => false end.

End Offline.

(** ** [class RealtimeService] (services/realtimeService.ts)

    The local listeners act on a world [W] (for the application, the React
    state of [RealtimeProvider]). A callback either returns or throws; a
    thrown exception carries the world as the callback left it. *)
Module Realtime.
Import Wire.

(** What the service depends on outside itself: the token of
    [authService.getToken()], and whether the call [io(...)] throws. *)
Record Env := mkEnv {
  token : option string;
  io_throws : bool;
}.

(** The socket object as far as the service reads it: its [connected]
    flag, and the reconnection options it was created with. *)
Record Socket := mkSocket {
  sock_id : nat;
  sock_connected : bool;
  sock_reconnectionDelay : Z;
  sock_reconnectionAttempts : Z;
}.

(** A timer registered with [setInterval]. *)
Record Interval := mkInterval {
  iv_id : nat;
  iv_period : Z;
}.

(** The messages handed to [socket.emit]. *)
Inductive Outgoing :=
| OTodoChange (u : TodoUpdate)
| OCursor (c : CursorPosition)
| OTyping (todoId : option Z)
| ORoom (roomId : string)
| OMessage (roomId message : string) (timestamp : Z).

(** The events a socket raises on the service. *)
Inductive SocketEvent :=
| ev_connect
| ev_disconnect (reason : string)
| ev_connect_error
| ev_message (name : string) (data : EventData).

Inductive Event :=
| SocketEv (sid : nat) (e : SocketEvent)
| IntervalEv (iv : nat).

(** The inbound messages [setupEventHandlers] relays to local listeners. *)
Definition relayed : list string :=
  [ "todo:created"; "todo:updated"; "todo:deleted";
    "user:joined"; "user:left"; "users:list";
    "cursor:move"; "typing:start"; "typing:stop" ].

(** [authService.getToken() || 'anonymous'] *)
Definition token_or_anonymous (env : Env) : string :=
  match token env with
  | Some t => if String.eqb t "" then "anonymous" else t
  | None => "anonymous"
  end.

(** An environment in which [connect] can create a socket: there is a
    token, it is not empty, and [io] does not throw. *)
Definition usable (env : Env) : Prop :=
  exists t, token env = Some t /\ String.eqb t "" = false /\ io_throws env = false.

Section Service.
Context {W : Type}.

Inductive Outcome :=
| Returned (w : W)
| Threw (w : W) (exn : string).

Definition world_of (o : Outcome) : W :=
  match o with Returned w => w | Threw w _ => w end.

(** A [Function] stored in a listener set: [cb_ref] is its identity as an
    object (a [Set] holds a function once), [cb_run] what a call does. *)
Record Callback := mkCallback {
  cb_ref : nat;
  cb_run : EventData -> W -> Outcome;
}.

(** The fields of the class, then what the runtime holds for it: the
    intervals registered, the messages given to the socket, and the
    counters the socket and timer identifiers are drawn from. *)
Record Service := mkService {
  socket : option Socket;
  reconnectAttempts : Z;
  maxReconnectAttempts : Z;
  reconnectDelay : Z;
  listeners : gmap string (list Callback);
  intervals : list Interval;
  sent : list (string * Outgoing);
  sockets_created : nat;
  timers_created : nat;
}.

(** [new RealtimeService()] *)
Definition new_service : Service :=
  {| socket := None; reconnectAttempts := 0; maxReconnectAttempts := 5;
     reconnectDelay := 1000; listeners := ∅; intervals := [];
     sent := []; sockets_created := 0; timers_created := 0 |}.

Definition with_socket (s : option Socket) (svc : Service) : Service :=
  {| socket := s; reconnectAttempts := reconnectAttempts svc;
     maxReconnectAttempts := maxReconnectAttempts svc;
     reconnectDelay := reconnectDelay svc; listeners := listeners svc;
     intervals := intervals svc; sent := sent svc;
     sockets_created := sockets_created svc;
     timers_created := timers_created svc |}.

Definition with_attempts (n : Z) (svc : Service) : Service :=
  {| socket := socket svc; reconnectAttempts := n;
     maxReconnectAttempts := maxReconnectAttempts svc;
     reconnectDelay := reconnectDelay svc; listeners := listeners svc;
     intervals := intervals svc; sent := sent svc;
     sockets_created := sockets_created svc;
     timers_created := timers_created svc |}.

Definition with_listeners (l : gmap string (list Callback))
    (svc : Service) : Service :=
  {| socket := socket svc; reconnectAttempts := reconnectAttempts svc;
     maxReconnectAttempts := maxReconnectAttempts svc;
     reconnectDelay := reconnectDelay svc; listeners := l;
     intervals := intervals svc; sent := sent svc;
     sockets_created := sockets_created svc;
     timers_created := timers_created svc |}.

Definition with_intervals (l : list Interval) (svc : Service) : Service :=
  {| socket := socket svc; reconnectAttempts := reconnectAttempts svc;
     maxReconnectAttempts := maxReconnectAttempts svc;
     reconnectDelay := reconnectDelay svc; listeners := listeners svc;
     intervals := l; sent := sent svc;
     sockets_created := sockets_created svc;
     timers_created := timers_created svc |}.

Definition socket_emit (name : string) (msg : Outgoing)
    (svc : Service) : Service :=
  {| socket := socket svc; reconnectAttempts := reconnectAttempts svc;
     maxReconnectAttempts := maxReconnectAttempts svc;
     reconnectDelay := reconnectDelay svc; listeners := listeners svc;
     intervals := intervals svc; sent := sent svc ++ [(name, msg)];
     sockets_created := sockets_created svc;
     timers_created := timers_created svc |}.

(** [this.socket?.connected], also [isConnected()]. *)
Definition isConnected (svc : Service) : bool :=
  match socket svc with
  | Some s => sock_connected s
  | None => false
  end.

(** *** Local listeners: [on], [off], [emit] *)

Definition same_ref (cb c : Callback) : bool :=
  Nat.eqb (cb_ref c) (cb_ref cb).

(** [Set.prototype.add]: a member keeps its place, a new one goes last. *)
Definition set_add (cb : Callback) (s : list Callback) : list Callback :=
  if existsb (same_ref cb) s then s else s ++ [cb].

(** [Set.prototype.delete] *)
Definition set_delete (cb : Callback) (s : list Callback) : list Callback :=
  List.filter (fun c => negb (same_ref cb c)) s.

Definition on (event : string) (callback : Callback)
    (svc : Service) : Service :=
  with_listeners
    (<[event := set_add callback (default [] (listeners svc !! event))]>
       (listeners svc))
    svc.

Definition off (event : string) (callback : Callback)
    (svc : Service) : Service :=
  match listeners svc !! event with
  | Some s => with_listeners (<[event := set_delete callback s]> (listeners svc)) svc
  | None => svc
  end.

(** [set.forEach(callback => callback(data))]: the members are called in
    insertion order; the first exception leaves the loop. *)
Fixpoint forEach (s : list Callback) (data : EventData) (w : W) : Outcome :=
  match s with
  | [] => Returned w
  | callback :: rest =>
      match cb_run callback data w with
      | Returned w' => forEach rest data w'
      | Threw w' exn => Threw w' exn
      end
  end.

(** The callbacks a [forEach] calls, by identity and in the order of the
    calls. *)
Fixpoint invoked (s : list Callback) (data : EventData) (w : W) : list nat :=
  match s with
  | [] => []
  | callback :: rest =>
      cb_ref callback ::
        match cb_run callback data w with
        | Returned w' => invoked rest data w'
        | Threw _ _ => []
        end
  end.

(** The callbacks [emit] hands an event to. *)
Definition subscribers (svc : Service) (event : string) : list Callback :=
  default [] (listeners svc !! event).

Definition emit (event : string) (data : EventData)
    (svc : Service) (w : W) : Outcome :=
  match listeners svc !! event with
  | Some s => forEach s data w
  | None => Returned w
  end.

(** *** Connection *)

(** [useFallbackPolling]: registers the 5000 ms interval. *)
Definition useFallbackPolling (svc : Service) : Service :=
  {| socket := socket svc; reconnectAttempts := reconnectAttempts svc;
     maxReconnectAttempts := maxReconnectAttempts svc;
     reconnectDelay := reconnectDelay svc; listeners := listeners svc;
     intervals := intervals svc
                    ++ [ {| iv_id := timers_created svc; iv_period := 5000 |} ];
     sent := sent svc;
     sockets_created := sockets_created svc;
     timers_created := S (timers_created svc) |}.

Definition clearInterval (iv : nat) (svc : Service) : Service :=
  with_intervals
    (List.filter (fun i => negb (Nat.eqb (iv_id i) iv)) (intervals svc)) svc.

(** [connect()]. The handlers [setupEventHandlers] attaches to the new
    socket are the cases of [handle] below. *)
Definition connect (env : Env) (svc : Service) : Service :=
  if isConnected svc then svc
  else
    match token env with
    | None => svc
    | Some t =>
        if String.eqb t "" then svc
        else if io_throws env then useFallbackPolling svc
        else
          {| socket := Some {| sock_id := sockets_created svc;
                               sock_connected := false;
                               sock_reconnectionDelay := reconnectDelay svc;
                               sock_reconnectionAttempts := maxReconnectAttempts svc |};
             reconnectAttempts := reconnectAttempts svc;
             maxReconnectAttempts := maxReconnectAttempts svc;
             reconnectDelay := reconnectDelay svc; listeners := listeners svc;
             intervals := intervals svc; sent := sent svc;
             sockets_created := S (sockets_created svc);
             timers_created := timers_created svc |}
    end.

(** [disconnect()]. [socket.disconnect()] on a connected socket closes it
    and raises its ['disconnect'] event at once, with the reason
    ["io client disconnect"]; the handler of the service relays it to the
    local listeners before the fields are cleared. *)
Definition disconnect (svc : Service) (w : W) : Service * Outcome :=
  match socket svc with
  | Some s =>
      let closed :=
        with_socket (Some {| sock_id := sock_id s; sock_connected := false;
                             sock_reconnectionDelay := sock_reconnectionDelay s;
                             sock_reconnectionAttempts := sock_reconnectionAttempts s |})
                    svc in
      let relayed_close :=
        if sock_connected s
        then emit "connection"
                  (DConnection "disconnected" (Some "io client disconnect"))
                  closed w
        else Returned w in
      match relayed_close with
      | Returned w' => (with_listeners ∅ (with_socket None closed), Returned w')
      | Threw w' exn => (closed, Threw w' exn)
      end
  | None => (with_listeners ∅ svc, Returned w)
  end.

(** The callback of the interval of [useFallbackPolling]. *)
Definition pollTick (env : Env) (iv : nat) (svc : Service) (w : W)
    : Service * Outcome :=
  if isConnected svc then (clearInterval iv svc, Returned w)
  else
    match emit "connection"
               (DConnection "polling" (Some "Using HTTP polling fallback"))
               svc w with
    | Threw w' exn => (svc, Threw w' exn)
    | Returned w' =>
        if reconnectAttempts svc <? maxReconnectAttempts svc * 2
        then (connect env (with_attempts (reconnectAttempts svc + 1) svc),
              Returned w')
        else (svc, Returned w')
    end.

(** The handlers of [setupEventHandlers]. *)
Definition handle (e : SocketEvent) (svc : Service) (w : W)
    : Service * Outcome :=
  match e with
  | ev_connect =>
      let svc' := with_attempts 0 svc in
      (svc', emit "connection" (DConnection "connected" None) svc' w)
  | ev_disconnect reason =>
      (svc, emit "connection" (DConnection "disconnected" (Some reason)) svc w)
  | ev_connect_error =>
      let svc' := with_attempts (reconnectAttempts svc + 1) svc in
      if maxReconnectAttempts svc' <=? reconnectAttempts svc'
      then (useFallbackPolling svc', Returned w)
      else (svc', Returned w)
  | ev_message name data =>
      if bool_decide (name ∈ relayed)
      then (svc, emit name data svc w)
      else (svc, Returned w)
  end.

(** What the socket library does to the socket object before it calls
    the handlers: the [connected] flag of the socket [sid] follows its
    connection. Events of a socket the service no longer holds still
    reach the handlers, which act on the service. *)
Definition transport (sid : nat) (e : SocketEvent) (svc : Service) : Service :=
  match socket svc, e with
  | Some s, ev_connect =>
      if Nat.eqb (sock_id s) sid
      then with_socket (Some {| sock_id := sock_id s; sock_connected := true;
                                sock_reconnectionDelay := sock_reconnectionDelay s;
                                sock_reconnectionAttempts := sock_reconnectionAttempts s |}) svc
      else svc
  | Some s, ev_disconnect _ =>
      if Nat.eqb (sock_id s) sid
      then with_socket (Some {| sock_id := sock_id s; sock_connected := false;
                                sock_reconnectionDelay := sock_reconnectionDelay s;
                                sock_reconnectionAttempts := sock_reconnectionAttempts s |}) svc
      else svc
  | _, _ => svc
  end.

(** Whether the interval [iv] is registered (and not cleared). *)
Definition registered (iv : nat) (svc : Service) : bool :=
  existsb (fun i => Nat.eqb (iv_id i) iv) (intervals svc).

(** One turn of the event loop. An interval that was cleared no longer
    fires. *)
Definition step (env : Env) (ev : Event) (svc : Service) (w : W)
    : Service * Outcome :=
  match ev with
  | SocketEv sid e => handle e (transport sid e svc) w
  | IntervalEv iv =>
      if registered iv svc
      then pollTick env iv svc w
      else (svc, Returned w)
  end.

(** A sequence of turns; an exception a handler lets escape ends its
    turn only. *)
Fixpoint run (env : Env) (evs : list Event) (svc : Service) (w : W)
    : Service * W :=
  match evs with
  | [] => (svc, w)
  | ev :: rest =>
      let r := step env ev svc w in
      run env rest (fst r) (world_of (snd r))
  end.

(** *** Outbound messages *)

Definition emitTodoChange (env : Env) (now : Z) (type : UpdateType)
    (todo : Payload) (svc : Service) : Service :=
  if negb (isConnected svc) then svc
  else socket_emit "todo:change"
         (OTodoChange {| upd_type := type; upd_todo := todo;
                         upd_userId := token_or_anonymous env;
                         upd_timestamp := now |})
         svc.

Definition emitCursorPosition (env : Env) (x y : Z) (todoId : option Z)
    (svc : Service) : Service :=
  if negb (isConnected svc) then svc
  else socket_emit "cursor:move"
         (OCursor {| cur_userId := token_or_anonymous env;
                     cur_userName := "User";
                     cur_x := x; cur_y := y; cur_todoId := todoId |})
         svc.

Definition emitTyping (isTyping : bool) (todoId : option Z)
    (svc : Service) : Service :=
  if negb (isConnected svc) then svc
  else socket_emit (if isTyping then "typing:start" else "typing:stop")
                   (OTyping todoId) svc.

(** [joinRoom], [leaveRoom], [sendMessage] *)
Definition joinRoom (roomId : string) (svc : Service) : Service :=
  if negb (isConnected svc) then svc
  else socket_emit "room:join" (ORoom roomId) svc.

Definition leaveRoom (roomId : string) (svc : Service) : Service :=
  if negb (isConnected svc) then svc
  else socket_emit "room:leave" (ORoom roomId) svc.

Definition sendMessage (now : Z) (roomId message : string)
    (svc : Service) : Service :=
  if negb (isConnected svc) then svc
  else socket_emit "message:send" (OMessage roomId message now) svc.

(** [getActiveUsersCount()] *)
Definition getActiveUsersCount (svc : Service) : Z := 1.

(** *** Runs of calls *)

(** Calls of [on] and [off]. *)
Inductive Subscription :=
| Subscribe (event : string) (callback : Callback)
| Unsubscribe (event : string) (callback : Callback).

Definition subscription_step (svc : Service) (op : Subscription) : Service :=
  match op with
  | Subscribe event callback => on event callback svc
  | Unsubscribe event callback => off event callback svc
  end.

Definition subscriptions (ops : list Subscription) (svc : Service) : Service :=
  foldl subscription_step svc ops.

(** Calls of the functions that send to the server. *)
Inductive Outbound :=
| OutTodoChange (now : Z) (type : UpdateType) (todo : Payload)
| OutCursorPosition (x y : Z) (todoId : option Z)
| OutTyping (isTyping : bool) (todoId : option Z)
| OutJoinRoom (roomId : string)
| OutLeaveRoom (roomId : string)
| OutMessage (now : Z) (roomId message : string).

Definition outbound (env : Env) (svc : Service) (op : Outbound) : Service :=
  match op with
  | OutTodoChange now type todo => emitTodoChange env now type todo svc
  | OutCursorPosition x y todoId => emitCursorPosition env x y todoId svc
  | OutTyping isTyping todoId => emitTyping isTyping todoId svc
  | OutJoinRoom roomId => joinRoom roomId svc
  | OutLeaveRoom roomId => leaveRoom roomId svc
  | OutMessage now roomId message => sendMessage now roomId message svc
  end.

Definition outbound_run (env : Env) (ops : list Outbound) (svc : Service) : Service :=
  foldl (outbound env) svc ops.

End Service.

Arguments Outcome W : clear implicits.
Arguments Callback W : clear implicits.
Arguments Service W : clear implicits.

End Realtime.

(** ** [RealtimeProvider] (contexts/RealtimeContext.tsx)

    The React state of the provider, with the clock and the queue of the
    [setTimeout] calls its cursor handler makes. *)
Module Provider.
Import Wire.

(** A pending [setTimeout] of the cursor handler: when it is due, and the
    user whose cursor its callback deletes. *)
Record Timeout := mkTimeout {
  due : Z;
  victim : string;
}.

Record State := mkState {
  isConnected : bool;
  activeUsers : list UserPresence;
  todoUpdates : list TodoUpdate;
  cursors : gmap string CursorPosition;
  typingUsers : gset string;
  clock : Z;
  timeouts : list Timeout;
}.

Definition initial : State :=
  {| isConnected := false; activeUsers := []; todoUpdates := [];
     cursors := ∅; typingUsers := ∅; clock := 0; timeouts := [] |}.

(** The timer queue is kept by due time; timers due at the same time keep
    the order of their registration. *)
Fixpoint schedule (tm : Timeout) (q : list Timeout) : list Timeout :=
  match q with
  | [] => [tm]
  | x :: rest =>
      if due x <=? due tm then x :: schedule tm rest else tm :: x :: rest
  end.

(** The order of the timer queue. *)
Definition by_due (a b : Timeout) : Prop := due a <= due b.

(** The ['connection'] listener. *)
Definition onConnection (data : EventData) (st : State) : State :=
  match data with
  | DConnection status _ =>
      {| isConnected := String.eqb status "connected" || String.eqb status "polling";
         activeUsers := activeUsers st; todoUpdates := todoUpdates st;
         cursors := cursors st; typingUsers := typingUsers st;
         clock := clock st; timeouts := timeouts st |}
  | _ => st
  end.

(** The ['todo:created'], ['todo:updated'] and ['todo:deleted'] listeners:
    [setTodoUpdates(prev => [...prev, data])]. *)
Definition onTodoEvent (data : EventData) (st : State) : State :=
  match data with
  | DTodo u =>
      {| isConnected := isConnected st; activeUsers := activeUsers st;
         todoUpdates := todoUpdates st ++ [u];
         cursors := cursors st; typingUsers := typingUsers st;
         clock := clock st; timeouts := timeouts st |}
  | _ => st
  end.

Definition with_activeUsers (l : list UserPresence) (st : State) : State :=
  {| isConnected := isConnected st; activeUsers := l;
     todoUpdates := todoUpdates st; cursors := cursors st;
     typingUsers := typingUsers st; clock := clock st;
     timeouts := timeouts st |}.

Definition onUserJoined (data : EventData) (st : State) : State :=
  match data with
  | DPresence p => with_activeUsers (activeUsers st ++ [p]) st
  | _ => st
  end.

Definition onUserLeft (data : EventData) (st : State) : State :=
  match data with
  | DPresence p =>
      with_activeUsers
        (List.filter (fun u => negb (String.eqb (up_userId u) (up_userId p)))
                     (activeUsers st))
        st
  | _ => st
  end.

Definition onUsersList (data : EventData) (st : State) : State :=
  match data with
  | DPresenceList l => with_activeUsers l st
  | _ => st
  end.

(** The ['cursor:move'] listener: the entry of the user is set, and a
    timeout of 3000 ms is registered that deletes the entry of that user.
    No earlier timeout is cancelled. *)
Definition onCursorMove (data : EventData) (st : State) : State :=
  match data with
  | DCursor c =>
      {| isConnected := isConnected st; activeUsers := activeUsers st;
         todoUpdates := todoUpdates st;
         cursors := <[cur_userId c := c]> (cursors st);
         typingUsers := typingUsers st; clock := clock st;
         timeouts := schedule {| due := clock st + 3000; victim := cur_userId c |}
                              (timeouts st) |}
  | _ => st
  end.

Definition with_typingUsers (s : gset string) (st : State) : State :=
  {| isConnected := isConnected st; activeUsers := activeUsers st;
     todoUpdates := todoUpdates st; cursors := cursors st;
     typingUsers := s; clock := clock st; timeouts := timeouts st |}.

Definition onTypingStart (data : EventData) (st : State) : State :=
  match data with
  | DTyping u _ _ => with_typingUsers (typingUsers st ∪ {[u]}) st
  | _ => st
  end.

Definition onTypingStop (data : EventData) (st : State) : State :=
  match data with
  | DTyping u _ _ => with_typingUsers (typingUsers st ∖ {[u]}) st
  | _ => st
  end.

(** The timeouts due at [t] run in queue order; each deletes the cursor of
    its user, whatever put the entry there. *)
Fixpoint fire_due (t : Z) (q : list Timeout)
    (cs : gmap string CursorPosition)
    : list Timeout * gmap string CursorPosition :=
  match q with
  | [] => ([], cs)
  | tm :: rest =>
      if due tm <=? t then fire_due t rest (delete (victim tm) cs)
      else (q, cs)
  end.

(** The clock reaches [t]: the timeouts due by then have run. *)
Definition elapse (t : Z) (st : State) : State :=
  if t <? clock st then st
  else
    let r := fire_due t (timeouts st) (cursors st) in
    {| isConnected := isConnected st; activeUsers := activeUsers st;
       todoUpdates := todoUpdates st; cursors := snd r;
       typingUsers := typingUsers st; clock := t; timeouts := fst r |}.

(** A ['cursor:move'] message arriving at time [t]. *)
Definition cursorMoveAt (t : Z) (c : CursorPosition) (st : State) : State :=
  onCursorMove (DCursor c) (elapse t st).

(** The listeners as the effect registers them with [realtimeService.on],
    in that order; none of them throws. *)
Definition listener (ref : nat) (f : EventData -> State -> State)
    : Realtime.Callback State :=
  {| Realtime.cb_ref := ref;
     Realtime.cb_run := fun data st => Realtime.Returned (f data st) |}.

Definition registrations : list (string * Realtime.Callback State) :=
  [ ("connection", listener 0 onConnection);
    ("todo:created", listener 1 onTodoEvent);
    ("todo:updated", listener 2 onTodoEvent);
    ("todo:deleted", listener 3 onTodoEvent);
    ("user:joined", listener 4 onUserJoined);
    ("user:left", listener 5 onUserLeft);
    ("users:list", listener 6 onUsersList);
    ("cursor:move", listener 7 onCursorMove);
    ("typing:start", listener 8 onTypingStart);
    ("typing:stop", listener 9 onTypingStop) ].

Definition setupListeners (svc : Realtime.Service State) : Realtime.Service State :=
  foldl (fun s r => Realtime.on (fst r) (snd r) s) svc registrations.

(** [disconnect] of the provider: the service is disconnected, then the
    presence state is reset. *)
Definition disconnect (svc : Realtime.Service State) (st : State)
    : Realtime.Service State * Realtime.Outcome State :=
  match Realtime.disconnect svc st with
  | (svc', Realtime.Returned st') =>
      (svc', Realtime.Returned
               {| isConnected := false; activeUsers := [];
                  todoUpdates := todoUpdates st'; cursors := ∅;
                  typingUsers := ∅; clock := clock st';
                  timeouts := timeouts st' |})
  | r => r
  end.

(** The effect on [isAuthenticated]: [connect()] when authenticated,
    [disconnect()] otherwise; [env] is what [connect] of the service
    reads. *)
Definition authEffect (env : Realtime.Env) (isAuthenticated : bool)
    (svc : Realtime.Service State) (st : State)
    : Realtime.Service State * Realtime.Outcome State :=
  if isAuthenticated
  then (Realtime.connect env svc, Realtime.Returned st)
  else disconnect svc st.

(** [isAuthenticated] changed: the cleanup of the effect runs, which is
    [disconnect()], and then the effect with the new value. The effect
    that registers the listeners has no dependencies and does not run
    again. *)
Definition authChanged (env : Realtime.Env) (isAuthenticated : bool)
    (svc : Realtime.Service State) (st : State)
    : Realtime.Service State * Realtime.Outcome State :=
  match disconnect svc st with
  | (svc', Realtime.Returned st') => authEffect env isAuthenticated svc' st'
  | r => r
  end.

(** Every pending timeout is due within 3000 ms, and every cursor shown
    has a pending timeout. *)
Definition expiring (st : State) : Prop :=
  (forall tm, In tm (timeouts st) -> due tm <= clock st + 3000)
  /\ (forall u c, cursors st !! u = Some c ->
        exists tm, In tm (timeouts st) /\ victim tm = u).

(** [onlineCount: activeUsers.length + 1] *)
Definition onlineCount (st : State) : Z :=
  Z.of_nat (length (activeUsers st)) + 1.

(** What moves the cursor map: a ['cursor:move'] message at a time, or the
    clock reaching a time. *)
Inductive CursorEvent :=
| CursorMoves (t : Z) (c : CursorPosition)
| ClockReaches (t : Z).

Definition cursor_step (st : State) (e : CursorEvent) : State :=
  match e with
  | CursorMoves t c => cursorMoveAt t c st
  | ClockReaches t => elapse t st
  end.

Definition cursor_run (es : list CursorEvent) (st : State) : State :=
  foldl cursor_step st es.

(** The inbound todo messages of a socket, as the events of the service. *)
Definition todo_messages (sid : nat) (msgs : list (string * TodoUpdate))
    : list Realtime.Event :=
  map (fun m => Realtime.SocketEv sid (Realtime.ev_message (fst m) (DTodo (snd m))))
      msgs.

End Provider.

(** ** The page [TodoList] (features/todos/pages/TodoList.tsx) *)
Module TodoListPage.
Import Todos Wire Offline.

(** [interface User] of authService.ts, [id: string | number]. *)
Inductive UserId :=
| IdString (s : string)
| IdNumber (n : JS.number).

Record User := mkUser {
  u_id : UserId;
  u_email : string;
  u_name : option string;
}.

(** [user?.id?.toString()]; [None] is [undefined]. *)
Definition user_id_string (user : option User) : option string :=
  match user with
  | None => None
  | Some u =>
      Some match u_id u with
           | IdString s => s
           | IdNumber n => JS.Number_toString n
           end
  end.

(** *** The query cache *)

(** A query of the cache: its data, and whether it was invalidated since
    the data was set. *)
Record Query := mkQuery {
  q_data : option (list Todo);
  q_invalidated : bool;
}.

Abbreviation QueryClient := (gmap (list string) Query).

(** [["todos", isOffline ? 'offline' : 'online']] *)
Definition todosKey (isOffline : bool) : list string :=
  [ "todos"; if isOffline then "offline" else "online" ].

(** [invalidateQueries({ queryKey })] marks every query whose key starts
    with [queryKey]. *)
Definition invalidateQueries (queryKey : list string)
    (qc : QueryClient) : QueryClient :=
  map_imap
    (fun key q =>
       Some (if bool_decide (queryKey `prefix_of` key)
             then {| q_data := q_data q; q_invalidated := true |}
             else q))
    qc.

(** [setQueryData(key, (old = []) => updater(old))] *)
Definition setQueryData (key : list string)
    (updater : list Todo -> list Todo) (qc : QueryClient) : QueryClient :=
  <[key := {| q_data := Some (updater (default [] (qc !! key ≫= q_data)));
              q_invalidated := false |}]> qc.

(** *** The network, as the page awaits it *)

Inductive Fetch (A : Type) :=
| NetworkError (msg : string)
| Response (ok : bool) (body : A).
Arguments NetworkError {A} msg.
Arguments Response {A} ok body.

Inductive Promise (A : Type) :=
| Resolved (a : A)
| Rejected (err : string).
Arguments Resolved {A} a.
Arguments Rejected {A} err.

(** What the query client reads before it runs a [queryFn] or a
    [mutationFn]. The client of the application sets no [networkMode], so
    its queries and mutations run in the mode ['online']: a fetch or a
    mutation starts only while [onlineManager.isOnline()], and a retry goes
    on only while the window is focused and the manager is online;
    otherwise it is paused and waits in the cache until the client resumes
    it. *)
Record Client := mkClient {
  managerOnline : bool;
  windowFocused : bool;
}.

Definition canStart (c : Client) : bool := managerOnline c.

Definition canContinue (c : Client) : bool :=
  windowFocused c && managerOnline c.

(** The online manager of the client starts as online and follows the
    ['online'] and ['offline'] events of the window; unlike [isOffline] of
    [OfflineProvider] it does not start from [navigator.onLine]. *)
Definition manager_step (isOnline : bool) (op : OfflineOp) : bool :=
  match op with
  | OpOnline => true
  | OpOffline => false
  | _ => isOnline
  end.

Definition manager_run (ops : list OfflineOp) : bool :=
  foldl manager_step true ops.

Definition is_window_event (op : OfflineOp) : bool :=
  match op with
  | OpOnline | OpOffline => true
  | _ => false
  end.

(** What one run of a [mutationFn] meets: what the client reads before
    the run, the successive readings of [Date.now()], and the outcomes of
    the requests to the primary and to the fallback endpoint (the second
    is awaited only after the first failed). *)
Record Run (A : Type) := mkRun {
  run_client : Client;
  run_now : nat -> Z;
  run_primary : Fetch A;
  run_fallback : Fetch A;
}.
Arguments run_client {A} r.
Arguments run_now {A} r k.
Arguments run_primary {A} r.
Arguments run_fallback {A} r.

(** The pattern of every mutation:
    [try { fetch primary; if (!res.ok) throw ...; return ... }
     catch { fetch fallback; if (!res.ok) throw new Error(failure); return ... }]. *)
Definition try_endpoints {A B : Type} (failure : string) (result : A -> B)
    (primary fallback : Fetch A) : Promise B :=
  match primary with
  | Response true body => Resolved (result body)
  | _ =>
      match fallback with
      | Response true body => Resolved (result body)
      | Response false _ => Rejected failure
      | NetworkError msg => Rejected msg
      end
  end.

(** The body of a response to [GET /todos]: an array, or an object that
    may have a [todos] field. *)
Inductive Body :=
| BArray (l : list Todo)
| BObject (todos : option (list Todo)).

Definition mark_synced (t : Todo) : Todo :=
  {| id := id t; todo := todo t; completed := completed t;
     userId := userId t; createdAt := createdAt t; updatedAt := updatedAt t;
     lastModified := lastModified t; syncStatus := Some synced |}.

(** [queryFn] of the todos query; [stored] is the entry ["todos"] of
    [localStorage], returned as the function leaves it. *)
Definition queryFn (isOffline : bool) (primary fallback : Fetch Body)
    (stored : option (list Todo))
    : Promise (list Todo) * option (list Todo) :=
  match isOffline, stored with
  | true, Some cached => (Resolved cached, stored)
  | _, _ =>
      match primary with
      | Response true data =>
          let todos := match data with
                       | BArray l => l
                       | BObject o => default [] o
                       end in
          (Resolved todos, Some todos)
      | _ =>
          match fallback with
          | NetworkError msg => (Rejected msg, stored)
          | Response _ (BObject (Some l)) =>
              let todos := map mark_synced l in
              (Resolved todos, Some todos)
          | Response _ _ =>
              (Rejected "TypeError: data.todos is undefined", stored)
          end
      end
  end.

(** *** The state the page acts on *)

Record World := mkWorld {
  queryClient : QueryClient;
  syncQueue : list QueueItem;
  storedTodos : option (list Todo);
  service : Realtime.Service Provider.State;
  newTitle : string;
  editingTodo : option Todo;
  isEditOpen : bool;
  deleteTodoId : option Z;
  isDeleteOpen : bool;
}.

(** What a render hands to the closures it creates. *)
Record Render := mkRender {
  isOffline : bool;
  realtimeConnected : bool;
  todosData : list Todo;
  user : option User;
}.

(** [data: todosData = []] of the query the page observes. *)
Definition observed (offline : bool) (w : World) : list Todo :=
  default [] (queryClient w !! todosKey offline ≫= q_data).

Definition with_queryClient (qc : QueryClient) (w : World) : World :=
  {| queryClient := qc; syncQueue := syncQueue w;
     storedTodos := storedTodos w; service := service w;
     newTitle := newTitle w; editingTodo := editingTodo w;
     isEditOpen := isEditOpen w; deleteTodoId := deleteTodoId w;
     isDeleteOpen := isDeleteOpen w |}.

Definition with_syncQueue (q : list QueueItem) (w : World) : World :=
  {| queryClient := queryClient w; syncQueue := q;
     storedTodos := storedTodos w; service := service w;
     newTitle := newTitle w; editingTodo := editingTodo w;
     isEditOpen := isEditOpen w; deleteTodoId := deleteTodoId w;
     isDeleteOpen := isDeleteOpen w |}.

Definition with_storedTodos (s : option (list Todo)) (w : World) : World :=
  {| queryClient := queryClient w; syncQueue := syncQueue w;
     storedTodos := s; service := service w;
     newTitle := newTitle w; editingTodo := editingTodo w;
     isEditOpen := isEditOpen w; deleteTodoId := deleteTodoId w;
     isDeleteOpen := isDeleteOpen w |}.

(** The fetch the query client runs for the observed query: [queryFn],
    whose result becomes the data of the query; a rejection keeps the
    data. [primary] and [fallback] are the outcomes of the requests of the
    run of [queryFn] that settles the fetch (a rejected run writes nothing,
    and the client runs [queryFn] again). While the client cannot start a
    fetch, the fetch is paused and the query stays as it is. *)
Definition refetch (c : Client) (offline : bool) (primary fallback : Fetch Body)
    (w : World) : World :=
  if canStart c
  then
    match queryFn offline primary fallback (storedTodos w) with
    | (Resolved todos, stored) =>
        with_storedTodos stored
          (with_queryClient
             (<[todosKey offline := {| q_data := Some todos;
                                       q_invalidated := false |}]>
                (queryClient w))
             w)
    | (Rejected _, stored) => with_storedTodos stored w
    end
  else w.

(** Whether the observed query is marked as invalidated. *)
Definition is_invalidated (offline : bool) (w : World) : bool :=
  match queryClient w !! todosKey offline with
  | Some q => q_invalidated q
  | None => false
  end.

(** [queryClient.invalidateQueries({ queryKey: ["todos"] })] as the page
    calls it: the queries under ["todos"] are marked, and the one the page
    observes is fetched again. *)
Definition invalidateTodos (r : Render) (c : Client)
    (primary fallback : Fetch Body) (w : World) : World :=
  let w' := with_queryClient (invalidateQueries ["todos"] (queryClient w)) w in
  match queryClient w !! todosKey (isOffline r) with
  | Some _ => refetch c (isOffline r) primary fallback w'
  | None => w'
  end.

(** *** The effect on [todoUpdates] *)

(** [useEffect(() => { ... }, [todoUpdates, queryClient, user])] *)
Definition todoUpdatesEffect (r : Render) (c : Client)
    (primary fallback : Fetch Body)
    (todoUpdates : list TodoUpdate) (w : World) : World :=
  match last todoUpdates with
  | None => w
  | Some latestUpdate =>
      if bool_decide (Some (upd_userId latestUpdate) = user_id_string (user r))
      then w
      else invalidateTodos r c primary fallback w
  end.

(** An inbound message [name] carrying [u], from the socket to the page.
    The handler of the service relays it to the local listeners of [name]:
    those of the provider while they are registered, nobody after a
    [disconnect()] of the service. The effect of the page runs when that
    gave a new [todoUpdates]. *)
Definition processRemoteEvent (r : Render) (c : Client)
    (primary fallback : Fetch Body)
    (name : string) (u : TodoUpdate) (st : Provider.State) (w : World)
    : Provider.State * World :=
  let st' := Realtime.world_of
               (snd (Realtime.handle (Realtime.ev_message name (DTodo u))
                                     (service w) st)) in
  (st', if bool_decide (Provider.todoUpdates st' = Provider.todoUpdates st)
        then w
        else todoUpdatesEffect r c primary fallback (Provider.todoUpdates st') w).

(** The stored record of a todo. *)
Definition find_todo (i : Z) (l : list Todo) : option Todo :=
  List.find (fun t => Z.eqb (id t) i) l.

(** *** The mutations *)

Record NewTodo := mkNewTodo {
  nt_todo : string;
  nt_completed : bool;
  nt_userId : Z;
}.

(** [isOffline ? 'pending' : 'synced'] *)
Definition status_for (offline : bool) : SyncStatus :=
  if offline then pending else synced.

Definition queued (a : Action) (p : Payload) : QueueItem :=
  {| qi_action := a; qi_data := p; qi_id := None |}.

(** [createTodo.mutationFn] *)
Definition createTodo_mutationFn (r : Render) (newTodo : NewTodo)
    (x : Run Todo) (q : list QueueItem) : Promise Todo * list QueueItem :=
  let todoWithMeta :=
    {| id := run_now x 0; todo := nt_todo newTodo;
       completed := nt_completed newTodo; userId := nt_userId newTodo;
       createdAt := None; updatedAt := None;
       lastModified := Some (run_now x 1);
       syncStatus := Some (status_for (isOffline r)) |} in
  if isOffline r
  then (Resolved todoWithMeta,
        addToSyncQueue (run_now x 2) (queued act_create (whole todoWithMeta)) q)
  else (try_endpoints "Failed to add todo" (fun body => body)
                      (run_primary x) (run_fallback x), q).

(** [{ ...todo, lastModified: Date.now(), syncStatus: ... }], with
    [completed] as given. *)
Definition stamped (r : Render) (now : Z) (done : bool) (t : Todo) : Todo :=
  {| id := id t; todo := todo t; completed := done; userId := userId t;
     createdAt := createdAt t; updatedAt := updatedAt t;
     lastModified := Some now;
     syncStatus := Some (status_for (isOffline r)) |}.

(** [updateTodo.mutationFn] *)
Definition updateTodo_mutationFn (r : Render) (t : Todo)
    (x : Run Todo) (q : list QueueItem) : Promise Todo * list QueueItem :=
  let updatedTodo := stamped r (run_now x 0) (completed t) t in
  if isOffline r
  then (Resolved updatedTodo,
        addToSyncQueue (run_now x 1) (queued act_update (whole updatedTodo)) q)
  else (try_endpoints "Failed to update todo" (fun body => body)
                      (run_primary x) (run_fallback x), q).

(** [deleteTodo.mutationFn]: the body of the response is not read. *)
Definition deleteTodo_mutationFn (r : Render) (i : Z)
    (x : Run Todo) (q : list QueueItem) : Promise Z * list QueueItem :=
  if isOffline r
  then (Resolved i, addToSyncQueue (run_now x 0) (queued act_delete (only_id i)) q)
  else (try_endpoints "Failed to delete" (fun _ => i)
                      (run_primary x) (run_fallback x), q).

(** [toggleCompleted.mutationFn]: offline, the toggle is queued as an
    ['update']. *)
Definition toggleCompleted_mutationFn (r : Render) (t : Todo)
    (x : Run Todo) (q : list QueueItem) : Promise Todo * list QueueItem :=
  let updatedTodo := stamped r (run_now x 0) (negb (completed t)) t in
  if isOffline r
  then (Resolved updatedTodo,
        addToSyncQueue (run_now x 1) (queued act_update (whole updatedTodo)) q)
  else (try_endpoints "Failed to toggle completion" (fun body => body)
                      (run_primary x) (run_fallback x), q).

(** [if (realtimeConnected && !isOffline) emitTodoChange(type, todo)] *)
Definition broadcast (r : Render) (env : Realtime.Env) (now : Z)
    (type : UpdateType) (p : Payload)
    (svc : Realtime.Service Provider.State) : Realtime.Service Provider.State :=
  if realtimeConnected r && negb (isOffline r)
  then Realtime.emitTodoChange env now type p svc
  else svc.

Definition replace_todo (updated : Todo) (l : list Todo) : list Todo :=
  map (fun t => if Z.eqb (id t) (id updated) then updated else t) l.

Definition remove_todo (i : Z) (l : list Todo) : list Todo :=
  List.filter (fun t => negb (Z.eqb (id t) i)) l.

Definition createTodo_onSuccess (r : Render) (env : Realtime.Env) (now : Z)
    (added : Todo) (w : World) : World :=
  {| queryClient := setQueryData (todosKey (isOffline r))
                      (fun old => added :: old) (queryClient w);
     syncQueue := syncQueue w;
     storedTodos := Some (added :: todosData r);
     service := broadcast r env now ty_create (whole added) (service w);
     newTitle := ""; editingTodo := editingTodo w;
     isEditOpen := isEditOpen w; deleteTodoId := deleteTodoId w;
     isDeleteOpen := isDeleteOpen w |}.

Definition updateTodo_onSuccess (r : Render) (env : Realtime.Env) (now : Z)
    (updated : Todo) (w : World) : World :=
  {| queryClient := setQueryData (todosKey (isOffline r))
                      (replace_todo updated) (queryClient w);
     syncQueue := syncQueue w;
     storedTodos := Some (replace_todo updated (todosData r));
     service := broadcast r env now ty_update (whole updated) (service w);
     newTitle := newTitle w; editingTodo := None;
     isEditOpen := false; deleteTodoId := deleteTodoId w;
     isDeleteOpen := isDeleteOpen w |}.

Definition deleteTodo_onSuccess (r : Render) (env : Realtime.Env) (now : Z)
    (i : Z) (w : World) : World :=
  {| queryClient := setQueryData (todosKey (isOffline r))
                      (remove_todo i) (queryClient w);
     syncQueue := syncQueue w;
     storedTodos := Some (remove_todo i (todosData r));
     service := broadcast r env now ty_delete (only_id i) (service w);
     newTitle := newTitle w; editingTodo := editingTodo w;
     isEditOpen := isEditOpen w; deleteTodoId := None;
     isDeleteOpen := false |}.

Definition toggleCompleted_onSuccess (r : Render) (env : Realtime.Env)
    (now : Z) (updated : Todo) (w : World) : World :=
  {| queryClient := setQueryData (todosKey (isOffline r))
                      (replace_todo updated) (queryClient w);
     syncQueue := syncQueue w;
     storedTodos := Some (replace_todo updated (todosData r));
     service := broadcast r env now ty_toggle (whole updated) (service w);
     newTitle := newTitle w; editingTodo := editingTodo w;
     isEditOpen := isEditOpen w; deleteTodoId := deleteTodoId w;
     isDeleteOpen := isDeleteOpen w |}.

(** The state of a mutation once [mutate] has gone as far as it can.
    [mutate] itself never throws: a rejection of [mutationFn] ends in the
    state [Failure], after the [onError] of the defaults has logged it. A
    mutation the client cannot run is [Paused]. *)
Inductive MutationState (A : Type) :=
| Success (a : A)
| Failure (err : string)
| Paused.
Arguments Success {A} a.
Arguments Failure {A} err.
Arguments Paused {A}.

(** [mutation.mutate(variables)] under the defaults
    [mutations: { retry: 1, onError: console.error }] of the query client:
    [mutationFn] runs if the client can start it, a rejected [mutationFn]
    is run once more if the client can continue, and [onSuccess] runs
    after the run that resolved. *)
Definition mutate {A B : Type}
    (mutationFn : Run B -> list QueueItem -> Promise A * list QueueItem)
    (onSuccess : A -> World -> World)
    (first retry : Run B) (w : World) : MutationState A * World :=
  if canStart (run_client first)
  then
    match mutationFn first (syncQueue w) with
    | (Resolved a, q) => (Success a, onSuccess a (with_syncQueue q w))
    | (Rejected _, q) =>
        if canContinue (run_client retry)
        then
          match mutationFn retry q with
          | (Resolved a, q') => (Success a, onSuccess a (with_syncQueue q' w))
          | (Rejected err, q') => (Failure err, with_syncQueue q' w)
          end
        else (Paused, with_syncQueue q w)
    end
  else (Paused, w).

(** The four mutations the page submits. *)
Inductive Mutation :=
| Create (newTodo : NewTodo)
| Update (t : Todo)
| Delete (i : Z)
| Toggle (t : Todo).

Definition as_payload {A : Type} (f : A -> Payload)
    (res : MutationState A * World) : MutationState Payload * World :=
  match res with
  | (Success a, w) => (Success (f a), w)
  | (Failure err, w) => (Failure err, w)
  | (Paused, w) => (Paused, w)
  end.

(** [createTodo.mutate(...)], [updateTodo.mutate(...)],
    [deleteTodo.mutate(...)], [toggleCompleted.mutate(...)]; [now] is the
    reading of [Date.now()] in [emitTodoChange]. *)
Definition submit (r : Render) (env : Realtime.Env) (now : Z) (m : Mutation)
    (first retry : Run Todo) (w : World) : MutationState Payload * World :=
  match m with
  | Create newTodo =>
      as_payload whole
        (mutate (createTodo_mutationFn r newTodo)
                (createTodo_onSuccess r env now) first retry w)
  | Update t =>
      as_payload whole
        (mutate (updateTodo_mutationFn r t)
                (updateTodo_onSuccess r env now) first retry w)
  | Delete i =>
      as_payload only_id
        (mutate (deleteTodo_mutationFn r i)
                (deleteTodo_onSuccess r env now) first retry w)
  | Toggle t =>
      as_payload whole
        (mutate (toggleCompleted_mutationFn r t)
                (toggleCompleted_onSuccess r env now) first retry w)
  end.

(** A request that did not end in a 2xx response. *)
Definition failed {A : Type} (f : Fetch A) : bool :=
  match f with
  | Response true _ => false
  | _ => true
  end.


(** The [type] a mutation broadcasts with. *)
Definition broadcast_type (m : Mutation) : UpdateType :=
  match m with
  | Create _ => ty_create
  | Update _ => ty_update
  | Delete _ => ty_delete
  | Toggle _ => ty_toggle
  end.

(** *** Filtering and pagination *)

(** [s.includes(q)] *)
Definition includes (s q : string) : bool :=
  match String.index 0 q s with
  | Some _ => true
  | None => false
  end.

Section Filtering.
(** [String.prototype.toLowerCase] is the library's. *)
Variable toLowerCase : string -> string.

(** The callback of [todosData.filter(...)]. *)
Definition matches (searchQuery filterStatus : string) (t : Todo) : bool :=
  let matchesSearch := includes (toLowerCase (todo t)) (toLowerCase searchQuery) in
  let matchesStatus :=
    String.eqb filterStatus "all"
    || (String.eqb filterStatus "completed" && completed t)
    || (String.eqb filterStatus "incomplete" && negb (completed t))
    || (String.eqb filterStatus "pending"
        && match syncStatus t with Some pending => true | _ => false end) in
  matchesSearch && matchesStatus.

(** [const filtered = todosData.filter(...)] *)
Definition filtered (searchQuery filterStatus : string)
    (data : list Todo) : list Todo :=
  List.filter (matches searchQuery filterStatus) data.

End Filtering.

(** [Array.prototype.slice(start, end)] at integral arguments: a negative
    index counts from the end, and both are clamped to the array. *)
Definition slice {A : Type} (start fin : Z) (l : list A) : list A :=
  let len := Z.of_nat (length l) in
  let k := if start <? 0 then Z.max (len + start) 0 else Z.min start len in
  let final := if fin <? 0 then Z.max (len + fin) 0 else Z.min fin len in
  take (Z.to_nat (final - k)) (drop (Z.to_nat k) l).

Definition todosPerPage : Z := 10.

(** [Math.ceil(sorted.length / todosPerPage)] *)
Definition totalPages {A : Type} (sorted : list A) : JS.number :=
  JS.Math_ceil (JS.div (JS.of_Z (Z.of_nat (length sorted))) (JS.of_Z todosPerPage)).

(** [sorted.slice(start, start + todosPerPage)] with
    [start = (page - 1) * todosPerPage], at an integral [page]. *)
Definition paginated {A : Type} (page : Z) (sorted : list A) : list A :=
  let start := (page - 1) * todosPerPage in
  slice start (start + todosPerPage) sorted.

(** The page buttons: [Array.from({ length: Math.min(5, totalPages) }, ...)],
    [None] where the callback returns [null], at integral [page] and
    [totalPages]. *)
Definition pageButtons (page pages : Z) : list (option Z) :=
  map (fun i =>
         let pageNum := if page <=? 3 then i + 1 else page - 2 + i in
         if pages <? pageNum then None else Some pageNum)
      (seqZ 0 (Z.min 5 pages)).

(** The controls of the pagination bar, shown when [totalPages > 1]. *)
Inductive PageControl :=
| Prev
| Next
| Button (i : nat).

(** [setPage(p => Math.max(1, p - 1))], [setPage(p => Math.min(totalPages, p + 1))],
    [setPage(pageNum)]; a [null] button is not there to be clicked. *)
Definition navigate (ctl : PageControl) (pages page : Z) : Z :=
  match ctl with
  | Prev => Z.max 1 (page - 1)
  | Next => Z.min pages (page + 1)
  | Button i =>
      match pageButtons page pages !! i with
      | Some (Some pageNum) => pageNum
      | _ => page
      end
  end.

End TodoListPage.

(** ** [class AuthService] (services/authService.ts)

    The service holds the two tokens; [localStorage] holds them and the
    user across reloads. A stored user stands for its JSON text. *)
Module Auth.
Import TodoListPage.

(** [interface User] with all its fields. *)
Record User := mkUser {
  id : UserId;
  email : string;
  name : option string;
  username : option string;
  avatar : option string;
  createdAt : option string;
}.

Record AuthResponse := mkAuthResponse {
  ar_user : User;
  ar_token : string;
  ar_refreshToken : option string;
  ar_expiresIn : option Z;
}.

Record LoginCredentials := mkLogin {
  lc_email : string;
  lc_password : string;
}.

Record SignupCredentials := mkSignup {
  sc_email : string;
  sc_password : string;
  sc_name : option string;
  sc_username : option string;
}.

(** The entries ['auth_token'], ['refresh_token'] and ['user_data'] of
    [localStorage]; [None] is an entry that is not there. *)
Record Storage := mkStorage {
  auth_token : option string;
  refresh_token : option string;
  user_data : option User;
}.

(** The fields [token] and [refreshToken] of the service. *)
Record AuthService := mkAuthService {
  token : option string;
  refreshToken : option string;
}.

Record World := mkWorld {
  service : AuthService;
  localStorage : Storage;
}.

(** The constructor: the tokens are loaded from [localStorage]. *)
Definition new_service (ls : Storage) : AuthService :=
  {| token := auth_token ls; refreshToken := refresh_token ls |}.

(** A page load: a new service over the storage as it is. *)
Definition reload (w : World) : World :=
  {| service := new_service (localStorage w); localStorage := localStorage w |}.

(** Whether a [string | null] is truthy. *)
Definition truthy (s : option string) : bool :=
  match s with
  | Some t => negb (String.eqb t "")
  | None => false
  end.

(** [a || b] on strings. *)
Definition or_else (a : option string) (b : string) : string :=
  match a with
  | Some t => if String.eqb t "" then b else t
  | None => b
  end.

(** [isAuthenticated()], [getToken()] *)
Definition isAuthenticated (w : World) : bool := truthy (token (service w)).
Definition getToken (w : World) : option string := token (service w).

(** [setAuthData(authResponse)] *)
Definition setAuthData (r : AuthResponse) (w : World) : World :=
  {| service :=
       {| token := Some (ar_token r);
          refreshToken := if truthy (ar_refreshToken r)
                          then ar_refreshToken r else None |};
     localStorage :=
       {| auth_token := Some (ar_token r);
          refresh_token := if truthy (ar_refreshToken r)
                           then ar_refreshToken r
                           else refresh_token (localStorage w);
          user_data := Some (ar_user r) |} |}.

(** [logout()] *)
Definition logout (w : World) : World :=
  {| service := {| token := None; refreshToken := None |};
     localStorage := {| auth_token := None; refresh_token := None;
                        user_data := None |} |}.

(** What a [fetch] of the service ends in: a rejection, or a response with
    its status, its JSON read as the expected type, and the [message] field
    of that JSON, read when the response is not ok. *)
Inductive Http (A : Type) :=
| NetworkFailure (msg : string)
| Reply (status : Z) (body : A) (message : option string).
Arguments NetworkFailure {A} msg.
Arguments Reply {A} status body message.

(** [response.ok] *)
Definition ok (status : Z) : bool := (200 <=? status) && (status <=? 299).

Definition http_error (status : Z) : string :=
  "HTTP error! status: " +:+ JS.toString status.

(** [refreshAccessToken()]; [refresh] is what the request to
    [/auth/refresh] ends in, its body the [token] of the JSON. *)
Definition refreshAccessToken (refresh : Http string) (w : World) : bool * World :=
  if negb (truthy (refreshToken (service w))) then (false, w)
  else
    match refresh with
    | NetworkFailure _ => (false, w)
    | Reply status data _ =>
        if negb (ok status) then (false, w)
        else (true,
              {| service := {| token := Some data;
                               refreshToken := refreshToken (service w) |};
                 localStorage :=
                   {| auth_token := Some data;
                      refresh_token := refresh_token (localStorage w);
                      user_data := user_data (localStorage w) |} |})
    end.

(** [request<T>(endpoint, options)]; [first] is what the request ends in,
    [refresh] and [retry] what the token refresh and the repeated request
    end in when a 401 leads to them. *)
Definition request {A : Type} (first retry : Http A) (refresh : Http string)
    (w : World) : Promise A * World :=
  match first with
  | NetworkFailure msg => (Rejected msg, w)
  | Reply status body message =>
      if status =? 401 then
        let r := refreshAccessToken refresh w in
        if fst r then
          match retry with
          | NetworkFailure msg => (Rejected msg, snd r)
          | Reply status' body' _ =>
              if negb (ok status') then (Rejected (http_error status'), snd r)
              else (Resolved body', snd r)
          end
        else (Rejected "Session expired. Please login again.", logout (snd r))
      else if negb (ok status)
           then (Rejected (or_else message (http_error status)), w)
           else (Resolved body, w)
  end.

(** [s.split('@')[0]] *)
Fixpoint before_at (s : string) : string :=
  match s with
  | EmptyString => EmptyString
  | String c rest =>
      if String.eqb (String c EmptyString) "@" then EmptyString
      else String c (before_at rest)
  end.

(** The mock response of [login]; [now] gives the three readings of
    [Date.now()]. *)
Definition mock_login (now : nat -> Z) (c : LoginCredentials) : AuthResponse :=
  {| ar_user := {| id := IdNumber (JS.of_Z (now 0%nat)); email := lc_email c;
                   name := Some (before_at (lc_email c));
                   username := None; avatar := None; createdAt := None |};
     ar_token := "mock_token_" +:+ JS.toString (now 1%nat);
     ar_refreshToken := Some ("mock_refresh_" +:+ JS.toString (now 2%nat));
     ar_expiresIn := None |}.

(** [login(credentials)]: a rejected request is answered with the mock
    response. *)
Definition login (now : nat -> Z) (c : LoginCredentials)
    (first retry : Http AuthResponse) (refresh : Http string) (w : World)
    : AuthResponse * World :=
  match request first retry refresh w with
  | (Resolved response, w') => (response, setAuthData response w')
  | (Rejected _, w') =>
      let mockResponse := mock_login now c in
      (mockResponse, setAuthData mockResponse w')
  end.

Definition mock_signup (now : nat -> Z) (c : SignupCredentials) : AuthResponse :=
  {| ar_user := {| id := IdNumber (JS.of_Z (now 0%nat)); email := sc_email c;
                   name := Some (or_else (sc_name c) (before_at (sc_email c)));
                   username := sc_username c;
                   avatar := None; createdAt := None |};
     ar_token := "mock_token_" +:+ JS.toString (now 1%nat);
     ar_refreshToken := Some ("mock_refresh_" +:+ JS.toString (now 2%nat));
     ar_expiresIn := None |}.

(** [signup(credentials)] *)
Definition signup (now : nat -> Z) (c : SignupCredentials)
    (first retry : Http AuthResponse) (refresh : Http string) (w : World)
    : AuthResponse * World :=
  match request first retry refresh w with
  | (Resolved response, w') => (response, setAuthData response w')
  | (Rejected _, w') =>
      let mockResponse := mock_signup now c in
      (mockResponse, setAuthData mockResponse w')
  end.

(** [getCurrentUser()] *)
Definition getCurrentUser (first retry : Http User) (refresh : Http string)
    (w : World) : option User * World :=
  if negb (truthy (token (service w))) then (None, w)
  else
    match request first retry refresh w with
    | (Resolved u, w') => (Some u, w')
    | (Rejected _, w') => (user_data (localStorage w'), w')
    end.

(** *** [AuthProvider] (contexts/AuthContext.tsx): its [user] state *)

(** [checkAuthStatus()]: the user the provider ends with, starting from
    [null]; a failure of [getCurrentUser] cannot occur, since it catches. *)
Definition checkAuthStatus (first retry : Http User) (refresh : Http string)
    (w : World) : option User * World :=
  if isAuthenticated w then getCurrentUser first retry refresh w
  else (None, w).

(** [isAuthenticated: !!user] of the context. *)
Definition ctx_isAuthenticated (user : option User) : bool :=
  match user with Some _ => true | None => false end.

End Auth.

(** ** Sample data for the examples *)
Module Samples.
Import Todos Wire Offline.

Definition a_todo (i : Z) (title : string) (done : bool) : Todo :=
  {| id := i; todo := title; completed := done; userId := 1;
     createdAt := None; updatedAt := None; lastModified := None;
     syncStatus := None |}.

(** A list of [c] completed todos followed by [p] open ones. *)
Definition todo_list (c p : nat) : list Todo :=
  replicate c (a_todo 1 "done" true) ++ replicate p (a_todo 2 "open" false).

Definition edit_7 : QueueItem :=
  {| qi_action := act_update;
     qi_data := whole (a_todo 7 "buy milk" false);
     qi_id := None |}.

Definition delete_7 : QueueItem :=
  {| qi_action := act_delete; qi_data := only_id 7; qi_id := None |}.

Definition alice : TodoListPage.User :=
  {| TodoListPage.u_id := TodoListPage.IdNumber (JS.of_Z 42);
     TodoListPage.u_email := "alice@example.org";
     TodoListPage.u_name := Some "Alice" |}.

(** A render of the page for [alice], online, with the realtime channel up. *)
Definition online_render (data : list Todo) : TodoListPage.Render :=
  {| TodoListPage.isOffline := false;
     TodoListPage.realtimeConnected := true;
     TodoListPage.todosData := data;
     TodoListPage.user := Some alice |}.

(** Todo 7 as the store holds it, last modified at 2000. *)
Definition milk : Todo :=
  {| id := 7; todo := "buy milk"; completed := false; userId := 1;
     createdAt := None; updatedAt := None; lastModified := Some 2000;
     syncStatus := Some synced |}.

(** Todo 7 as the server holds it. *)
Definition bread : Todo :=
  {| id := 7; todo := "buy bread"; completed := false; userId := 1;
     createdAt := None; updatedAt := None; lastModified := Some 1000;
     syncStatus := None |}.

Definition a_world (data : list Todo) : TodoListPage.World :=
  {| TodoListPage.queryClient :=
       {[ TodoListPage.todosKey false :=
            {| TodoListPage.q_data := Some data;
               TodoListPage.q_invalidated := false |} ]};
     TodoListPage.syncQueue := [];
     TodoListPage.storedTodos := Some data;
     TodoListPage.service := Realtime.new_service;
     TodoListPage.newTitle := "";
     TodoListPage.editingTodo := None;
     TodoListPage.isEditOpen := false;
     TodoListPage.deleteTodoId := None;
     TodoListPage.isDeleteOpen := false |}.

(** The same world with the listeners of the provider registered on the
    service. *)
Definition listening_world (data : list Todo) : TodoListPage.World :=
  {| TodoListPage.queryClient := TodoListPage.queryClient (a_world data);
     TodoListPage.syncQueue := [];
     TodoListPage.storedTodos := Some data;
     TodoListPage.service := Provider.setupListeners Realtime.new_service;
     TodoListPage.newTitle := "";
     TodoListPage.editingTodo := None;
     TodoListPage.isEditOpen := false;
     TodoListPage.deleteTodoId := None;
     TodoListPage.isDeleteOpen := false |}.

(** An event of user [origin] on todo 7, stamped [ts]. *)
Definition event_on_7 (origin : string) (ts : Z) : TodoUpdate :=
  {| upd_type := ty_update; upd_todo := whole bread;
     upd_userId := origin; upd_timestamp := ts |}.

Definition server_has (l : list Todo) : TodoListPage.Fetch TodoListPage.Body :=
  TodoListPage.Response true (TodoListPage.BArray l).

Definition unreachable {A : Type} : TodoListPage.Fetch A :=
  TodoListPage.NetworkError "TypeError: Failed to fetch".

Definition shopping : TodoListPage.NewTodo :=
  {| TodoListPage.nt_todo := "buy eggs";
     TodoListPage.nt_completed := false;
     TodoListPage.nt_userId := 1 |}.

(** The client with the window focused and no ['offline'] event seen, and
    the client after an ['offline'] event. *)
Definition running : TodoListPage.Client :=
  {| TodoListPage.managerOnline := true; TodoListPage.windowFocused := true |}.

Definition cut_off : TodoListPage.Client :=
  {| TodoListPage.managerOnline := false; TodoListPage.windowFocused := true |}.

(** A run of a mutation at time 1700000000000 in which the primary
    endpoint answers 500 and the fallback cannot be reached. *)
Definition both_down : TodoListPage.Run Todo :=
  {| TodoListPage.run_client := running;
     TodoListPage.run_now := fun _ => 1700000000000;
     TodoListPage.run_primary := TodoListPage.Response false milk;
     TodoListPage.run_fallback := unreachable |}.

Definition signed_in : Realtime.Env :=
  {| Realtime.token := Some "token-of-alice"; Realtime.io_throws := false |}.

(** Two subscribers that log their calls in a world of type [list nat]:
    one returns, one throws after logging. *)
Definition logger (ref : nat) : Realtime.Callback (list nat) :=
  {| Realtime.cb_ref := ref;
     Realtime.cb_run := fun _ log => Realtime.Returned (log ++ [ref]) |}.

Definition thrower (ref : nat) : Realtime.Callback (list nat) :=
  {| Realtime.cb_ref := ref;
     Realtime.cb_run := fun _ log => Realtime.Threw (log ++ [ref]) "boom" |}.

Definition created_7 : EventData := DTodo (event_on_7 "bob" 1000).

(** The provider's listeners on a service whose socket 0 is connected. *)
Definition live_service : Realtime.Service Provider.State :=
  fst (Realtime.step signed_in (Realtime.SocketEv 0 Realtime.ev_connect)
         (Realtime.connect signed_in (Provider.setupListeners Realtime.new_service))
         Provider.initial).

(** The provider's listeners on a service that has just called [connect]. *)
Definition connecting_service : Realtime.Service Provider.State :=
  Realtime.connect signed_in (Provider.setupListeners Realtime.new_service).

Definition connect_errors (k : nat) : list Realtime.Event :=
  replicate k (Realtime.SocketEv 0 Realtime.ev_connect_error).

Definition probe_cycles (n : nat) : list Realtime.Event :=
  replicate n (Realtime.IntervalEv 0).

(** The same service after five failed connection attempts. *)
Definition degraded_service : Realtime.Service Provider.State :=
  fst (Realtime.run signed_in (connect_errors 5) connecting_service
         Provider.initial).

(** A cursor of user bob at the point ([x], [y]). *)
Definition cursor_of_bob (x y : Z) : CursorPosition :=
  {| cur_userId := "bob"; cur_userName := "Bob";
     cur_x := x; cur_y := y; cur_todoId := None |}.

(** The authentication service of a visitor who never signed in, and of a
    user signed in with a refresh token. *)
Definition signed_out : Auth.World :=
  {| Auth.service := {| Auth.token := None; Auth.refreshToken := None |};
     Auth.localStorage := {| Auth.auth_token := None; Auth.refresh_token := None;
                             Auth.user_data := None |} |}.

Definition dave : Auth.User :=
  {| Auth.id := TodoListPage.IdNumber (JS.of_Z 7); Auth.email := "dave@example.org";
     Auth.name := Some "Dave"; Auth.username := None; Auth.avatar := None;
     Auth.createdAt := None |}.

Definition dave_session : Auth.World :=
  Auth.setAuthData
    {| Auth.ar_user := dave; Auth.ar_token := "token-1";
       Auth.ar_refreshToken := Some "refresh-1"; Auth.ar_expiresIn := None |}
    signed_out.

Definition dave_login : Auth.LoginCredentials :=
  {| Auth.lc_email := "dave@example.org"; Auth.lc_password := "wrong" |}.

(** The server refuses with 401. *)
Definition unauthorized {A : Type} (body : A) : Auth.Http A :=
  Auth.Reply 401 body (Some "Invalid credentials").

Definition no_network {A : Type} : Auth.Http A :=
  Auth.NetworkFailure "TypeError: Failed to fetch".

Definition no_answer : Auth.AuthResponse :=
  {| Auth.ar_user := dave; Auth.ar_token := ""; Auth.ar_refreshToken := None;
     Auth.ar_expiresIn := None |}.

(** An environment without a token, and a service in which a polling
    interval is registered. *)
Definition anonymous_env : Realtime.Env :=
  {| Realtime.token := None; Realtime.io_throws := false |}.

Definition idle_polling_service : Realtime.Service Provider.State :=
  Realtime.useFallbackPolling (Provider.setupListeners Realtime.new_service).

End Samples.

(** * Properties *)

(** ** Statistics of the page *)
Section Statistics.
Import Todos Samples.

Lemma count_of_split (p : Todo -> bool) (l : list Todo) :
  (count_of p l + count_of (fun t => negb (p t)) l = length l)%nat.
Proof.
  unfold count_of.
  induction l as [|t l IH]; simpl; [reflexivity|].
  destruct (p t); simpl; lia.
Qed.

(** X1: the counts of the statistics add up for every list of todos:
    completed + pending = total. *)
Lemma stats_counts_add_up (todosData : list Todo) :
  (st_completed (stats todosData) + st_pending (stats todosData)
   = st_total (stats todosData))%nat.
Proof. apply count_of_split. Qed.

(** The division is guarded: the rate of the empty list is 0. *)
Lemma stats_rate_empty : st_completionRate (stats []) = JS.of_Z 0.
Proof. reflexivity. Qed.

(** The rate is a whole number where the quotient is exact. *)
Example stats_rate_1_of_8 :
  st_completionRate (stats (todo_list 1 7)) = JS.of_Z 13.
Proof. vm_compute. reflexivity. Qed.

(** C9: the statistics at a list of 40 todos of which 23 are completed.
    The counts are 40, 23 and 17, and 100 * 23 / 40 is 57.5, which rounds
    to 58, over the rationals and also in doubles when the product is
    taken first; the page computes [Math.round((23 / 40) * 100)], where the
    double product is 57.49999999999999, and shows 57. *)
Theorem stats_rate_23_of_40 :
  st_total (stats (todo_list 23 17)) = 40%nat /\
  st_completed (stats (todo_list 23 17)) = 23%nat /\
  st_pending (stats (todo_list 23 17)) = 17%nat /\
  exact_rate 23 40 = 58 /\
  JS.Math_round (JS.div (JS.mul (JS.of_Z 100) (JS.of_Z 23)) (JS.of_Z 40))
  = JS.of_Z 58 /\
  st_completionRate (stats (todo_list 23 17)) = JS.of_Z 57 /\
  st_completionRate (stats (todo_list 23 17)) <> JS.of_Z (exact_rate 23 40).
Proof. vm_compute. repeat split; discriminate. Qed.

End Statistics.

(** ** The offline queue *)
Section OfflineQueue.
Import Todos Wire Offline Samples.

Lemma addToSyncQueue_length now item prev :
  length (addToSyncQueue now item prev) = S (length prev).
Proof. unfold addToSyncQueue. rewrite length_app. simpl. lia. Qed.

Lemma addToSyncQueue_intent now item prev :
  map intent (addToSyncQueue now item prev) = map intent prev ++ [intent item].
Proof. unfold addToSyncQueue. rewrite map_app. reflexivity. Qed.

(** C3, as stated, fails: the same operation enqueued twice within one
    millisecond gives two entries with the same identifier, and the
    second call makes the queue longer. *)
Lemma enqueue_same_id_twice_grows :
  let q1 := addToSyncQueue 1700000000000 edit_7 [] in
  let q2 := addToSyncQueue 1700000000000 edit_7 q1 in
  map qi_id q2 = [Some "1700000000000"; Some "1700000000000"] /\
  length q2 <> length q1.
Proof. vm_compute. split; [reflexivity | discriminate]. Qed.

(** An identifier the caller put on the item is overwritten: the same
    operation, named ["op-1"] by its caller, enqueued at two times gives
    two entries under two identifiers. *)
Example caller_identifier_is_overwritten :
  let op := {| qi_action := act_update; qi_data := only_id 7;
               qi_id := Some "op-1" |} in
  map qi_id (enqueueAll [(1700000000000, op); (1700000000001, op)] [])
  = [Some "1700000000000"; Some "1700000000001"].
Proof. vm_compute. reflexivity. Qed.

(** C3, amended: every call of [addToSyncQueue] appends exactly one entry,
    stamped with the clock reading as identifier, behind the entries
    already queued; an entry with the same identifier does not prevent
    it. *)
Theorem addToSyncQueue_always_appends now item prev :
  length (addToSyncQueue now item prev) = S (length prev) /\
  take (length prev) (addToSyncQueue now item prev) = prev /\
  last (addToSyncQueue now item prev)
    = Some {| qi_action := qi_action item; qi_data := qi_data item;
              qi_id := Some (JS.toString now) |}.
Proof.
  split; [apply addToSyncQueue_length|].
  unfold addToSyncQueue. split.
  - rewrite take_app_length. reflexivity.
  - apply last_snoc.
Qed.

(** C4, as stated, fails: an update of todo 7 queued before a delete of
    todo 7 is still in the queue after the delete. *)
Lemma update_survives_later_delete :
  let q := enqueueAll [(1700000000000, edit_7); (1700000000005, delete_7)] [] in
  map qi_action q = [act_update; act_delete] /\
  existsb (is_update_of 7) q = true.
Proof. vm_compute. split; reflexivity. Qed.

Lemma enqueueAll_intent ops prev :
  map intent (enqueueAll ops prev)
  = map intent prev ++ map (fun op => intent (snd op)) ops.
Proof.
  unfold enqueueAll. revert prev.
  induction ops as [|op ops IH]; intros prev; simpl.
  - rewrite app_nil_r. reflexivity.
  - rewrite IH, addToSyncQueue_intent, <- app_assoc. reflexivity.
Qed.

Lemma is_update_of_intent target (l : list QueueItem) :
  length (List.filter (is_update_of target) l)
  = length (List.filter
              (fun ap => match fst ap with
                         | act_update => bool_decide (payload_id (snd ap) = target)
                         | _ => false
                         end)
              (map intent l)).
Proof.
  induction l as [|x l IH]; simpl; [reflexivity|].
  unfold is_update_of at 1. destruct (qi_action x); simpl; try exact IH.
  destruct (bool_decide _); simpl; rewrite IH; reflexivity.
Qed.

(** C4, amended: the queue keeps every operation it was given, in the
    order given, whatever the actions are; in particular the number of
    queued updates of a todo is the number before plus the number
    enqueued, and a delete removes none of them. *)
Theorem enqueueAll_keeps_every_operation ops prev target :
  map intent (enqueueAll ops prev)
  = map intent prev ++ map (fun op => intent (snd op)) ops /\
  length (List.filter (is_update_of target) (enqueueAll ops prev))
  = (length (List.filter (is_update_of target) prev)
     + length (List.filter (is_update_of target) (map snd ops)))%nat.
Proof.
  split; [apply enqueueAll_intent|].
  rewrite !is_update_of_intent, enqueueAll_intent.
  rewrite List.filter_app, length_app, map_map. reflexivity.
Qed.

(** Entries leave the queue by identifier only. *)
Lemma removeFromSyncQueue_spec i prev item :
  In item (removeFromSyncQueue i prev) <-> In item prev /\ qi_id item <> Some i.
Proof.
  unfold removeFromSyncQueue. rewrite List.filter_In.
  unfold has_other_id. rewrite bool_decide_eq_true. reflexivity.
Qed.

End OfflineQueue.

(** ** Inbound todo events on the page *)
Section RemoteEvents.
Import Todos Wire Samples TodoListPage.

Lemma with_queryClient_same w : with_queryClient (queryClient w) w = w.
Proof. destruct w; reflexivity. Qed.

Lemma latest_of_onTodoEvent u st :
  last (Provider.todoUpdates (Provider.onTodoEvent (DTodo u) st)) = Some u.
Proof. simpl. apply last_snoc. Qed.

Lemma todos_prefix offline : ["todos"] `prefix_of` todosKey offline.
Proof. exists [if offline then "offline" else "online"]. reflexivity. Qed.

Lemma invalidateQueries_observed offline qc q :
  qc !! todosKey offline = Some q ->
  invalidateQueries ["todos"] qc !! todosKey offline
  = Some {| q_data := q_data q; q_invalidated := true |}.
Proof.
  intros Hq. unfold invalidateQueries.
  rewrite map_lookup_imap, Hq. cbn [mbind option_bind].
  rewrite bool_decide_eq_true_2 by apply todos_prefix. reflexivity.
Qed.

(** The origin the service stamps on the changes it sends is the token of
    the session (or ["anonymous"]), not the identifier of the user. *)
Lemma emitTodoChange_origin env now type p (svc : Realtime.Service Provider.State) :
  Realtime.isConnected svc = true ->
  Realtime.sent (Realtime.emitTodoChange env now type p svc)
  = Realtime.sent svc
    ++ [ ("todo:change",
          Realtime.OTodoChange
            {| upd_type := type; upd_todo := p;
               upd_userId := Realtime.token_or_anonymous env;
               upd_timestamp := now |}) ].
Proof.
  intros Hc. unfold Realtime.emitTodoChange. rewrite Hc. reflexivity.
Qed.

(** [user?.id?.toString()] for numeric identifiers: the digits of an
    integer, the shortest digits that give the double back above 2^53, the
    exponent form from 1e21 on, and a decimal point for a fraction. *)
Example user_id_string_of_numbers :
  map (fun n => user_id_string
                  (Some {| u_id := IdNumber n; u_email := "a@example.org";
                           u_name := None |}))
      [ JS.of_Z 42; JS.of_Z (2 ^ 60); JS.of_Z (10 ^ 21);
        JS.div (JS.of_Z 3) (JS.of_Z 2); JS.of_Z (-7) ]
  = [ Some "42"; Some "1152921504606847000"; Some "1e+21";
      Some "1.5"; Some "-7" ].
Proof. vm_compute. reflexivity. Qed.

Lemma provider_todo_listeners name :
  name ∈ ["todo:created"; "todo:updated"; "todo:deleted"] ->
  exists ref,
    Realtime.listeners (Provider.setupListeners Realtime.new_service) !! name
    = Some [Provider.listener ref Provider.onTodoEvent].
Proof.
  intros Hin. repeat (apply elem_of_cons in Hin as [->|Hin]).
  - exists 1%nat. vm_compute. reflexivity.
  - exists 2%nat. vm_compute. reflexivity.
  - exists 3%nat. vm_compute. reflexivity.
  - apply elem_of_nil in Hin. destruct Hin.
Qed.

Lemma todo_names_relayed name :
  name ∈ ["todo:created"; "todo:updated"; "todo:deleted"] ->
  name ∈ Realtime.relayed.
Proof.
  intros Hin. repeat (apply elem_of_cons in Hin as [->|Hin]);
    unfold Realtime.relayed; set_solver.
Qed.

(** While the listeners of the provider are registered, the handler of
    the service hands a todo message to [onTodoEvent]. *)
Lemma relayed_to_provider name u st (svc : Realtime.Service Provider.State) :
  name ∈ ["todo:created"; "todo:updated"; "todo:deleted"] ->
  Realtime.listeners svc
  = Realtime.listeners (Provider.setupListeners Realtime.new_service) ->
  Realtime.handle (Realtime.ev_message name (DTodo u)) svc st
  = (svc, Realtime.Returned (Provider.onTodoEvent (DTodo u) st)).
Proof.
  intros Hname Hl. destruct (provider_todo_listeners name Hname) as [ref Hsub].
  cbn [Realtime.handle].
  rewrite bool_decide_eq_true_2 by (apply todo_names_relayed, Hname).
  unfold Realtime.emit. rewrite Hl, Hsub. reflexivity.
Qed.

Lemma snoc_differs {A : Type} (l : list A) (x : A) : l ++ [x] <> l.
Proof.
  intros H. apply (f_equal length) in H. rewrite length_app in H.
  cbn in H. lia.
Qed.

Lemma processRemoteEvent_heard r c primary fallback name u st w :
  name ∈ ["todo:created"; "todo:updated"; "todo:deleted"] ->
  Realtime.listeners (service w)
  = Realtime.listeners (Provider.setupListeners Realtime.new_service) ->
  processRemoteEvent r c primary fallback name u st w
  = (Provider.onTodoEvent (DTodo u) st,
     todoUpdatesEffect r c primary fallback (Provider.todoUpdates st ++ [u]) w).
Proof.
  intros Hname Hl. unfold processRemoteEvent.
  rewrite (relayed_to_provider name u st _ Hname Hl).
  cbn [snd Realtime.world_of Provider.onTodoEvent Provider.todoUpdates].
  rewrite bool_decide_eq_false_2 by apply snoc_differs. reflexivity.
Qed.

(** After a [disconnect()] of the service nobody listens: the message is
    dropped, and the effect of the page does not run. *)
Lemma processRemoteEvent_unheard r c primary fallback name u st w :
  Realtime.listeners (service w) = ∅ ->
  processRemoteEvent r c primary fallback name u st w = (st, w).
Proof.
  intros Hl. unfold processRemoteEvent.
  assert (Hh : Realtime.handle (Realtime.ev_message name (DTodo u)) (service w) st
               = (service w, Realtime.Returned st)).
  { cbn [Realtime.handle]. destruct (bool_decide _); [|reflexivity].
    unfold Realtime.emit. rewrite Hl, lookup_empty. reflexivity. }
  rewrite Hh. cbn [snd Realtime.world_of].
  rewrite bool_decide_eq_true_2 by reflexivity. reflexivity.
Qed.

Lemma effect_of_own_event r c primary fallback earlier u w :
  Some (upd_userId u) = user_id_string (user r) ->
  todoUpdatesEffect r c primary fallback (earlier ++ [u]) w = w.
Proof.
  intros Hown. unfold todoUpdatesEffect. rewrite last_snoc.
  rewrite bool_decide_eq_true_2 by exact Hown. reflexivity.
Qed.

Lemma effect_of_foreign_event r c primary fallback earlier u w :
  Some (upd_userId u) <> user_id_string (user r) ->
  todoUpdatesEffect r c primary fallback (earlier ++ [u]) w
  = invalidateTodos r c primary fallback w.
Proof.
  intros Hother. unfold todoUpdatesEffect. rewrite last_snoc.
  rewrite bool_decide_eq_false_2 by exact Hother. reflexivity.
Qed.

(** C1: an inbound todo event whose [userId] is the identifier of the
    local user is discarded. While the listeners of the provider are
    registered, the event joins [todoUpdates] and the effect of the page
    returns before [invalidateQueries]; after a [disconnect()] of the
    service nobody listens and the event is dropped. Either way the page
    (query cache, stored copy, queue) is left exactly as it was, and
    whenever the effect runs again with that event as the latest, it does
    the same. *)
Theorem own_event_is_discarded r c primary fallback name u st w :
  name ∈ ["todo:created"; "todo:updated"; "todo:deleted"] ->
  Realtime.listeners (service w)
  = Realtime.listeners (Provider.setupListeners Realtime.new_service)
  \/ Realtime.listeners (service w) = ∅ ->
  Some (upd_userId u) = user_id_string (user r) ->
  snd (processRemoteEvent r c primary fallback name u st w) = w
  /\ forall earlier,
       todoUpdatesEffect r c primary fallback (earlier ++ [u]) w = w.
Proof.
  intros Hname Hl Hown. split.
  - destruct Hl as [Hl|Hl].
    + rewrite (processRemoteEvent_heard _ _ _ _ _ _ _ _ Hname Hl). cbn [snd].
      apply effect_of_own_event, Hown.
    + rewrite (processRemoteEvent_unheard _ _ _ _ _ _ _ _ Hl). reflexivity.
  - intros earlier. apply effect_of_own_event, Hown.
Qed.

Lemma own_event_is_discarded_witness :
  snd (processRemoteEvent (online_render [milk]) running (server_has [bread])
         unreachable "todo:updated" (event_on_7 "42" 5000) Provider.initial
         (listening_world [milk]))
  = listening_world [milk].
Proof.
  refine (proj1 (own_event_is_discarded (online_render [milk]) running
                   (server_has [bread]) unreachable "todo:updated"
                   (event_on_7 "42" 5000) Provider.initial
                   (listening_world [milk]) _ _ _)).
  - set_solver.
  - left. reflexivity.
  - vm_compute. reflexivity.
Defined.

(** C2, as stated, fails: todo 7 is stored with [lastModified] 2000; an
    event of another user on todo 7 stamped 1000 makes the page refetch,
    and the stored title changes to the one the server returns. *)
Lemma stale_event_changes_stored_fields :
  let w' := snd (processRemoteEvent (online_render [milk]) running
                   (server_has [bread]) unreachable "todo:updated"
                   (event_on_7 "bob" 1000) Provider.initial
                   (listening_world [milk])) in
  find_todo 7 (observed false (listening_world [milk])) = Some milk /\
  lastModified milk = Some 2000 /\
  (upd_timestamp (event_on_7 "bob" 1000) <=? 2000) = true /\
  find_todo 7 (observed false w') = Some bread /\
  storedTodos w' = Some [bread] /\
  todo bread <> todo milk.
Proof. vm_compute. repeat split; discriminate. Qed.

Lemma effect_reads_origin_only r c primary fallback earlier u u' w :
  upd_userId u' = upd_userId u ->
  todoUpdatesEffect r c primary fallback (earlier ++ [u']) w
  = todoUpdatesEffect r c primary fallback (earlier ++ [u]) w.
Proof.
  intros Hsame. unfold todoUpdatesEffect.
  rewrite !last_snoc, Hsame. reflexivity.
Qed.

(** What [invalidateQueries] leaves of a query the page observes: marked
    and not fetched while the client is paused; holding what [queryFn]
    resolved to; or marked, with the data it had, when [queryFn] rejected. *)
Lemma invalidateTodos_observed r c primary fallback w q :
  queryClient w !! todosKey (isOffline r) = Some q ->
  let w' := invalidateTodos r c primary fallback w in
  if canStart c
  then match queryFn (isOffline r) primary fallback (storedTodos w) with
       | (Resolved todos, stored) =>
           observed (isOffline r) w' = todos
           /\ storedTodos w' = stored
           /\ is_invalidated (isOffline r) w' = false
       | (Rejected _, stored) =>
           observed (isOffline r) w' = observed (isOffline r) w
           /\ storedTodos w' = stored
           /\ is_invalidated (isOffline r) w' = true
       end
  else w' = with_queryClient (invalidateQueries ["todos"] (queryClient w)) w.
Proof.
  intros Hq. cbn zeta. unfold invalidateTodos. rewrite Hq.
  unfold refetch. destruct (canStart c); [|reflexivity].
  cbn [storedTodos with_queryClient].
  destruct (queryFn (isOffline r) primary fallback (storedTodos w))
    as [[todos|err] stored].
  - unfold observed, is_invalidated.
    cbn [queryClient storedTodos with_storedTodos with_queryClient].
    rewrite lookup_insert_eq. repeat split.
  - unfold observed, is_invalidated.
    cbn [queryClient storedTodos with_storedTodos with_queryClient].
    rewrite (invalidateQueries_observed _ _ q Hq), Hq. repeat split.
Qed.

(** C2, amended: the timestamp of an inbound event and the [lastModified]
    of the stored todo are not compared. With the listeners of the
    provider registered and the todos query observed, an event of the
    local user changes nothing; an event of another user, whatever its
    timestamp, invalidates the todos queries, and the observed query is
    fetched again: the store then holds what [queryFn] resolved to (and
    keeps its data, marked as invalidated, when [queryFn] rejected or the
    client is paused). Two events of the same origin are processed alike,
    whatever todos and timestamps they carry. *)
Theorem foreign_event_refetches r c primary fallback name u st w q :
  name ∈ ["todo:created"; "todo:updated"; "todo:deleted"] ->
  Realtime.listeners (service w)
  = Realtime.listeners (Provider.setupListeners Realtime.new_service) ->
  queryClient w !! todosKey (isOffline r) = Some q ->
  let w' := snd (processRemoteEvent r c primary fallback name u st w) in
  (Some (upd_userId u) = user_id_string (user r) -> w' = w)
  /\ (Some (upd_userId u) <> user_id_string (user r) ->
      if canStart c
      then match queryFn (isOffline r) primary fallback (storedTodos w) with
           | (Resolved todos, stored) =>
               observed (isOffline r) w' = todos
               /\ storedTodos w' = stored
               /\ is_invalidated (isOffline r) w' = false
           | (Rejected _, stored) =>
               observed (isOffline r) w' = observed (isOffline r) w
               /\ storedTodos w' = stored
               /\ is_invalidated (isOffline r) w' = true
           end
      else w' = with_queryClient (invalidateQueries ["todos"] (queryClient w)) w)
  /\ (forall u', upd_userId u' = upd_userId u ->
        snd (processRemoteEvent r c primary fallback name u' st w) = w').
Proof.
  intros Hname Hl Hq. cbn zeta.
  rewrite (processRemoteEvent_heard _ _ _ _ _ u _ _ Hname Hl). cbn [snd].
  split; [|split].
  - intros Hown. apply effect_of_own_event, Hown.
  - intros Hother. rewrite (effect_of_foreign_event _ _ _ _ _ _ _ Hother).
    apply (invalidateTodos_observed r c primary fallback w q Hq).
  - intros u' Hsame.
    rewrite (processRemoteEvent_heard _ _ _ _ _ u' _ _ Hname Hl). cbn [snd].
    apply effect_reads_origin_only, Hsame.
Qed.

Lemma foreign_event_refetches_witness :
  observed false
    (snd (processRemoteEvent (online_render [milk]) running
            (server_has [bread]) unreachable "todo:created"
            (event_on_7 "bob" 1000) Provider.initial
            (listening_world [milk])))
  = [bread].
Proof.
  pose proof (foreign_event_refetches (online_render [milk]) running
                (server_has [bread]) unreachable "todo:created"
                (event_on_7 "bob" 1000) Provider.initial
                (listening_world [milk])
                {| q_data := Some [milk]; q_invalidated := false |}) as H.
  cbn zeta in H. destruct H as (_ & H & _).
  - set_solver.
  - reflexivity.
  - vm_compute. reflexivity.
  - assert (Hother : Some (upd_userId (event_on_7 "bob" 1000))
                     <> user_id_string (user (online_render [milk])))
      by (vm_compute; discriminate).
    apply H in Hother. exact (proj1 Hother).
Defined.

End RemoteEvents.

(** ** Submitting a mutation *)
Section Submit.
Import Todos Wire Offline Samples TodoListPage.







(** [isOffline] of the page and the online manager of the client follow
    the same window events, from different starts: the page is offline
    while the client still runs only when the page was loaded without
    network and no ['online'] or ['offline'] event came since. *)
Lemma offline_page_with_running_client onLine ops :
  off_isOffline (offline_run ops (offline_initial onLine)) = true ->
  manager_run ops = true ->
  onLine = false /\ forallb (fun op => negb (is_window_event op)) ops = true.
Proof.
  unfold offline_run, manager_run.
  induction ops as [|op ops IH] using rev_ind.
  - cbn. intros H _. destruct onLine; [discriminate H | auto].
  - rewrite !foldl_app, forallb_app. cbn [foldl forallb].
    destruct op; cbn [offline_step manager_step off_isOffline is_window_event negb];
      try discriminate; intros H1 H2;
      destruct (IH H1 H2) as [-> ->]; auto.
Qed.


(** On a page loaded without network, with no window event since, the
    same mutation is queued, marked pending, with no request made, and
    shown at once. *)
Example offline_create_is_queued :
  let offline := {| isOffline := true; realtimeConnected := false;
                    todosData := [milk]; user := Some alice |} in
  let res := submit offline signed_in 1700000000000
               (Create shopping) both_down both_down (a_world [milk]) in
  map qi_action (syncQueue (snd res)) = [act_create] /\
  map qi_id (syncQueue (snd res)) = [Some "1700000000000"] /\
  map syncStatus (observed true (snd res)) = [Some pending] /\
  length (Realtime.sent (service (snd res))) = 0%nat.
Proof. vm_compute. repeat split. Qed.

(** After an ['offline'] event the client pauses the mutation before
    [mutationFn] runs: nothing is queued and nothing is shown. *)
Example create_after_offline_event_is_paused :
  let offline := {| isOffline := true; realtimeConnected := false;
                    todosData := [milk]; user := Some alice |} in
  let cut := {| run_client := cut_off; run_now := fun _ => 1700000000000;
                run_primary := unreachable; run_fallback := unreachable |} in
  manager_run [OpOffline] = false /\
  off_isOffline (offline_run [OpOffline] (offline_initial true)) = true /\
  submit offline signed_in 1700000000000 (Create shopping) cut cut
         (a_world [milk])
  = (Paused, a_world [milk]).
Proof. vm_compute. repeat split. Qed.



End Submit.

(** ** Local listeners of the realtime service *)
Section Listeners.
Import Wire Samples Realtime.
Context {W : Type}.
Implicit Types (svc : Service W) (cb : Callback W) (s : list (Callback W)) (w : W).

Lemma subscribers_on event cb svc :
  subscribers (on event cb svc) event = set_add cb (subscribers svc event).
Proof.
  unfold subscribers, on. cbn [listeners with_listeners].
  rewrite lookup_insert_eq. reflexivity.
Qed.

Lemma forEach_app s1 s2 data w :
  forEach (s1 ++ s2) data w
  = match forEach s1 data w with
    | Returned w' => forEach s2 data w'
    | Threw w' exn => Threw w' exn
    end.
Proof.
  revert w. induction s1 as [|c s1 IH]; intros w; simpl; [reflexivity|].
  destruct (cb_run c data w); [apply IH | reflexivity].
Qed.

(** What a [forEach] does, read off its result: either every member was
    called, in order, or the members up to the first one that threw. *)
Lemma forEach_calls s data w :
  match forEach s data w with
  | Returned _ => invoked s data w = map cb_ref s
  | Threw w' exn =>
      exists pre h post w1,
        s = pre ++ h :: post /\
        forEach pre data w = Returned w1 /\
        cb_run h data w1 = Threw w' exn /\
        invoked s data w = map cb_ref pre ++ [cb_ref h]
  end.
Proof.
  revert w. induction s as [|c s IH]; intros w; simpl; [reflexivity|].
  destruct (cb_run c data w) as [w1|w1 exn] eqn:Hc.
  - specialize (IH w1). destruct (forEach s data w1) as [w2|w2 exn].
    + rewrite IH. reflexivity.
    + destruct IH as (pre & h & post & w3 & -> & Hpre & Hh & Hinv).
      exists (c :: pre), h, post, w3. simpl. rewrite Hc, Hinv. auto.
  - exists [], c, s, w. simpl. auto.
Qed.

Lemma emit_forEach event data svc w :
  emit event data svc w = forEach (subscribers svc event) data w.
Proof.
  unfold emit, subscribers. destruct (listeners svc !! event); reflexivity.
Qed.

(** C6, amended: [on] puts a new callback behind the ones subscribed
    before it (a callback already subscribed keeps its place), and [emit]
    calls the subscribers of the event in that order. If all return, all
    were called. If one throws, the ones before it were called in order,
    the exception leaves [emit] with it, and the ones after it are not
    called. *)
Theorem emit_calls_in_order_until_a_throw event data svc w :
  (forall cb,
      subscribers (on event cb svc) event
      = if existsb (same_ref cb) (subscribers svc event)
        then subscribers svc event
        else subscribers svc event ++ [cb])
  /\ match emit event data svc w with
     | Returned _ =>
         invoked (subscribers svc event) data w
         = map cb_ref (subscribers svc event)
     | Threw w' exn =>
         exists pre h post w1,
           subscribers svc event = pre ++ h :: post /\
           forEach pre data w = Returned w1 /\
           cb_run h data w1 = Threw w' exn /\
           invoked (subscribers svc event) data w = map cb_ref pre ++ [cb_ref h]
     end.
Proof.
  split.
  - intros cb. rewrite subscribers_on. reflexivity.
  - rewrite emit_forEach. apply forEach_calls.
Qed.

Lemma disconnect_result svc w svc' w' :
  disconnect svc w = (svc', Returned w') ->
  socket svc' = None /\ listeners svc' = ∅.
Proof.
  unfold disconnect. destruct (socket svc) as [s|] eqn:Hs.
  - destruct (if sock_connected s then _ else _);
      intros [= <- <-]; split; reflexivity.
  - intros [= <- <-]. split; [exact Hs | reflexivity].
Qed.

(** [disconnect] returns whenever no listener is to be told, and then
    leaves the world alone. *)
Lemma disconnect_returns_when_not_connected svc w :
  isConnected svc = false ->
  snd (disconnect svc w) = Returned w.
Proof.
  unfold isConnected, disconnect. destruct (socket svc) as [s|]; [|reflexivity].
  intros ->. reflexivity.
Qed.

(** C10: once [disconnect()] has returned, the socket reference is null
    and the listener map is empty; an event emitted afterwards has no
    subscriber and is delivered to no callback, until [on] registers one
    again, which is then the only subscriber of its event. *)
Theorem disconnect_drops_every_subscription svc w svc' w' :
  disconnect svc w = (svc', Returned w') ->
  socket svc' = None
  /\ listeners svc' = ∅
  /\ (forall event data w0,
         subscribers svc' event = []
         /\ invoked (subscribers svc' event) data w0 = []
         /\ emit event data svc' w0 = Returned w0)
  /\ (forall event cb data w0,
         subscribers (on event cb svc') event = [cb]
         /\ emit event data (on event cb svc') w0
            = forEach [cb] data w0).
Proof.
  intros Hd. destruct (disconnect_result _ _ _ _ Hd) as [Hsock Hl].
  assert (Hsub : forall event, subscribers svc' event = []).
  { intros event. unfold subscribers. rewrite Hl, lookup_empty. reflexivity. }
  split; [exact Hsock|]. split; [exact Hl|]. split.
  - intros event data w0. rewrite emit_forEach, Hsub. auto.
  - intros event cb data w0.
    rewrite emit_forEach, subscribers_on, Hsub. auto.
Qed.

End Listeners.

Section ListenersExamples.
Import Wire Samples Realtime.

(** C6, as stated, fails: with a throwing callback subscribed before a
    logging one, [emit] calls the first only; the exception leaves [emit]
    and the second callback is never called. *)
Lemma throwing_subscriber_stops_fan_out :
  let svc := on "todo:created" (logger 2)
               (on "todo:created" (thrower 1) new_service) in
  map cb_ref (subscribers svc "todo:created") = [1; 2]%nat /\
  emit "todo:created" created_7 svc [] = Threw [1%nat] "boom" /\
  invoked (subscribers svc "todo:created") created_7 [] = [1%nat].
Proof. vm_compute. repeat split. Qed.

(** When no callback throws, all are called in subscription order. *)
Example fan_out_in_subscription_order :
  let svc := on "todo:created" (logger 3)
               (on "todo:created" (logger 1)
                  (on "todo:created" (logger 2) new_service)) in
  emit "todo:created" created_7 svc [] = Returned [2; 1; 3]%nat.
Proof. vm_compute. reflexivity. Qed.

(** The service of the samples has the ten listeners of the provider and
    a connected socket. *)
Example live_service_is_live :
  isConnected live_service = true /\
  map cb_ref (subscribers live_service "connection") = [0%nat] /\
  size (listeners live_service) = 10%nat.
Proof. vm_compute. repeat split. Qed.

Lemma disconnect_drops_every_subscription_witness :
  socket (fst (disconnect live_service Provider.initial)) = None
  /\ listeners (fst (disconnect live_service Provider.initial)) = ∅.
Proof.
  pose proof (disconnect_drops_every_subscription live_service Provider.initial
                (fst (disconnect live_service Provider.initial))
                (world_of (snd (disconnect live_service Provider.initial))))
    as H.
  destruct H as (H1 & H2 & _).
  - vm_compute. reflexivity.
  - split; [exact H1 | exact H2].
Defined.

End ListenersExamples.

(** ** Reconnection and the polling fallback *)
Section Reconnect.
Import Wire Realtime.
Context {W : Type}.
Implicit Types (svc : Service W) (w : W).

Lemma emit_same_listeners event data svc1 svc2 w :
  listeners svc1 = listeners svc2 ->
  emit event data svc1 w = emit event data svc2 w.
Proof. unfold emit. intros ->. reflexivity. Qed.

(** One failed connection attempt: the count goes up by one, and from the
    ceiling on an interval of 5000 ms is registered. *)
Lemma connect_error_step env sid svc w :
  step env (SocketEv sid ev_connect_error) svc w
  = (if maxReconnectAttempts svc <=? reconnectAttempts svc + 1
     then useFallbackPolling (with_attempts (reconnectAttempts svc + 1) svc)
     else with_attempts (reconnectAttempts svc + 1) svc,
     Returned w).
Proof.
  unfold step, handle.
  replace (transport sid ev_connect_error svc) with svc
    by (unfold transport; destruct (socket svc); reflexivity).
  cbn [maxReconnectAttempts reconnectAttempts with_attempts].
  destruct (_ <=? _); reflexivity.
Qed.

Lemma connect_errors_run env sid k svc w :
  Forall (fun i => iv_period i = 5000) (intervals svc) ->
  let svc' := fst (run env (replicate k (SocketEv sid ev_connect_error)) svc w) in
  reconnectAttempts svc' = reconnectAttempts svc + Z.of_nat k
  /\ maxReconnectAttempts svc' = maxReconnectAttempts svc
  /\ Z.of_nat (length (intervals svc'))
     = Z.of_nat (length (intervals svc))
       + Z.max 0 (Z.min (Z.of_nat k)
                    (reconnectAttempts svc + Z.of_nat k
                     - maxReconnectAttempts svc + 1))
  /\ Forall (fun i => iv_period i = 5000) (intervals svc')
  /\ socket svc' = socket svc.
Proof.
  revert svc w. induction k as [|k IH]; intros svc w Hper; cbn zeta.
  - simpl. repeat split; try lia; assumption.
  - cbn [replicate run]. rewrite connect_error_step. cbn [fst snd world_of].
    destruct (maxReconnectAttempts svc <=? reconnectAttempts svc + 1) eqn:Hc.
    + apply Z.leb_le in Hc.
      specialize (IH (useFallbackPolling
                        (with_attempts (reconnectAttempts svc + 1) svc)) w).
      cbn zeta in IH.
      destruct IH as (Ha & Hm & Hlen & Hall & Hs).
      { cbn [intervals useFallbackPolling with_attempts].
        apply Forall_app. split; [assumption|].
        constructor; [reflexivity | constructor]. }
      rewrite Ha, Hm, Hlen, Hs.
      cbn [reconnectAttempts maxReconnectAttempts intervals socket
             useFallbackPolling with_attempts].
      rewrite length_app. cbn [length].
      repeat split; try assumption; lia.
    + apply Z.leb_gt in Hc.
      specialize (IH (with_attempts (reconnectAttempts svc + 1) svc) w Hper).
      cbn zeta in IH.
      destruct IH as (Ha & Hm & Hlen & Hall & Hs).
      rewrite Ha, Hm, Hlen, Hs.
      cbn [reconnectAttempts maxReconnectAttempts intervals socket with_attempts].
      repeat split; try assumption; lia.
Qed.

Lemma connect_fresh_socket env svc :
  usable env -> isConnected svc = false ->
  connect env svc
  = {| socket := Some {| sock_id := sockets_created svc;
                         sock_connected := false;
                         sock_reconnectionDelay := reconnectDelay svc;
                         sock_reconnectionAttempts := maxReconnectAttempts svc |};
       reconnectAttempts := reconnectAttempts svc;
       maxReconnectAttempts := maxReconnectAttempts svc;
       reconnectDelay := reconnectDelay svc; listeners := listeners svc;
       intervals := intervals svc; sent := sent svc;
       sockets_created := S (sockets_created svc);
       timers_created := timers_created svc |}.
Proof.
  intros (t & Ht & Hne & Hio) Hc. unfold connect.
  rewrite Hc, Ht, Hne, Hio. reflexivity.
Qed.

(** One cycle of the polling interval while the socket is down and the
    listeners of ['connection'] return. *)
Lemma poll_cycle env iv svc w :
  usable env -> isConnected svc = false -> registered iv svc = true ->
  (forall data w0, exists w1, emit "connection" data svc w0 = Returned w1) ->
  exists w1,
    emit "connection" (DConnection "polling" (Some "Using HTTP polling fallback"))
         svc w = Returned w1
    /\ step env (IntervalEv iv) svc w
       = (if reconnectAttempts svc <? maxReconnectAttempts svc * 2
          then connect env (with_attempts (reconnectAttempts svc + 1) svc)
          else svc,
          Returned w1).
Proof.
  intros Henv Hc Hreg Hq.
  destruct (Hq (DConnection "polling" (Some "Using HTTP polling fallback")) w)
    as [w1 Hw1].
  exists w1. split; [exact Hw1|].
  unfold step. rewrite Hreg.
  unfold pollTick. rewrite Hc, Hw1.
  destruct (_ <? _); reflexivity.
Qed.

Lemma poll_cycles_run env iv n svc w :
  usable env -> isConnected svc = false -> registered iv svc = true ->
  (forall data w0, exists w1, emit "connection" data svc w0 = Returned w1) ->
  let svc' := fst (run env (replicate n (IntervalEv iv)) svc w) in
  let tries := Z.min (Z.of_nat n)
                 (Z.max 0 (maxReconnectAttempts svc * 2 - reconnectAttempts svc)) in
  reconnectAttempts svc' = reconnectAttempts svc + tries
  /\ Z.of_nat (sockets_created svc') = Z.of_nat (sockets_created svc) + tries
  /\ isConnected svc' = false
  /\ intervals svc' = intervals svc.
Proof.
  intros Henv. revert svc w.
  induction n as [|n IH]; intros svc w Hc Hreg Hq; cbn zeta.
  - simpl. repeat split; try lia; assumption.
  - cbn [replicate run].
    destruct (poll_cycle env iv svc w Henv Hc Hreg Hq) as (w1 & _ & ->).
    cbn [fst snd world_of].
    destruct (reconnectAttempts svc <? maxReconnectAttempts svc * 2) eqn:Hlt.
    + apply Z.ltb_lt in Hlt.
      rewrite connect_fresh_socket by assumption.
      cbn [reconnectAttempts maxReconnectAttempts reconnectDelay listeners
             intervals sent sockets_created timers_created with_attempts].
      match goal with |- context [run env _ ?s w1] => set (svc1 := s) end.
      specialize (IH svc1 w1). cbn zeta in IH.
      destruct IH as (Ha & Hs & Hc' & Hi).
      { reflexivity. }
      { exact Hreg. }
      { intros data w0. rewrite (emit_same_listeners _ _ svc1 svc) by reflexivity.
        apply Hq. }
      rewrite Ha, Hs, Hc', Hi. subst svc1.
      cbn [reconnectAttempts maxReconnectAttempts intervals sockets_created].
      repeat split; lia.
    + apply Z.ltb_ge in Hlt.
      specialize (IH svc w1 Hc Hreg Hq). cbn zeta in IH.
      destruct IH as (Ha & Hs & Hc' & Hi).
      rewrite Ha, Hs, Hc', Hi.
      repeat split; lia.
Qed.

(** When the interval fires with the socket connected, it is cleared. *)
Lemma poll_cycle_connected env iv svc w :
  isConnected svc = true -> registered iv svc = true ->
  step env (IntervalEv iv) svc w = (clearInterval iv svc, Returned w).
Proof.
  intros Hc Hreg. unfold step. rewrite Hreg. unfold pollTick. rewrite Hc.
  reflexivity.
Qed.

(** C7, amended. A new service hands the ceiling 5 and the delay 1000 ms
    to the socket it creates. After [k] failed connection attempts the
    failure count has grown by [k], and one interval of 5000 ms was
    registered for each attempt that found the count at or above the
    ceiling: none before the count reaches it. Each time such an interval
    fires while the socket is down, the listeners of ['connection'] are
    told the status ['polling']; over [n] cycles a fresh connect is
    attempted in the first cycles only, as long as the count is below
    twice the ceiling, each attempt adding one to the count; the later
    cycles attempt none. *)
Theorem reconnect_degrades_to_bounded_polling env sid iv k n svc w :
  usable env ->
  isConnected svc = false ->
  registered iv svc = true ->
  (forall data w0, exists w1, emit "connection" data svc w0 = Returned w1) ->
  Forall (fun i => iv_period i = 5000) (intervals svc) ->
  socket (connect env (new_service (W:=W)))
  = Some {| sock_id := 0; sock_connected := false;
            sock_reconnectionDelay := 1000; sock_reconnectionAttempts := 5 |}
  /\ (let failed := fst (run env (replicate k (SocketEv sid ev_connect_error)) svc w) in
      reconnectAttempts failed = reconnectAttempts svc + Z.of_nat k
      /\ Z.of_nat (length (intervals failed))
         = Z.of_nat (length (intervals svc))
           + Z.max 0 (Z.min (Z.of_nat k)
                        (reconnectAttempts svc + Z.of_nat k
                         - maxReconnectAttempts svc + 1))
      /\ Forall (fun i => iv_period i = 5000) (intervals failed))
  /\ (exists w1,
         emit "connection"
              (DConnection "polling" (Some "Using HTTP polling fallback")) svc w
         = Returned w1
         /\ snd (step env (IntervalEv iv) svc w) = Returned w1)
  /\ (let probed := fst (run env (replicate n (IntervalEv iv)) svc w) in
      let tries := Z.min (Z.of_nat n)
                     (Z.max 0 (maxReconnectAttempts svc * 2
                               - reconnectAttempts svc)) in
      reconnectAttempts probed = reconnectAttempts svc + tries
      /\ Z.of_nat (sockets_created probed)
         = Z.of_nat (sockets_created svc) + tries
      /\ isConnected probed = false
      /\ intervals probed = intervals svc).
Proof.
  intros Henv Hc Hreg Hq Hper. split; [|split; [|split]].
  - rewrite connect_fresh_socket by (assumption || reflexivity). reflexivity.
  - pose proof (connect_errors_run env sid k svc w Hper) as H. cbn zeta in *.
    destruct H as (Ha & _ & Hlen & Hall & _). auto.
  - destruct (poll_cycle env iv svc w Henv Hc Hreg Hq) as (w1 & Hw1 & Hstep).
    exists w1. rewrite Hstep. auto.
  - apply poll_cycles_run; assumption.
Qed.

End Reconnect.

Section ReconnectExamples.
Import Wire Samples Realtime.

(** C7, as stated, fails. After five failed connection attempts the
    interval of 5000 ms is registered. Its first five cycles each attempt
    a fresh connect (five more sockets are created, the count reaches 10)
    and report ['polling'], which the provider shows as connected. In the
    sixth cycle the socket is still down, yet no connect is attempted: no
    socket is created and the service is left as it was. *)
Lemma sixth_probe_cycle_attempts_no_connect :
  let probed := run signed_in (probe_cycles 5) degraded_service Provider.initial in
  let sixth := step signed_in (IntervalEv 0) (fst probed) (snd probed) in
  intervals connecting_service = []
  /\ intervals degraded_service = [ {| iv_id := 0; iv_period := 5000 |} ]
  /\ reconnectAttempts degraded_service = 5
  /\ sockets_created degraded_service = 1%nat
  /\ reconnectAttempts (fst probed) = 10
  /\ sockets_created (fst probed) = 6%nat
  /\ Provider.isConnected (snd probed) = true
  /\ isConnected (fst probed) = false
  /\ registered 0 (fst probed) = true
  /\ sockets_created (fst sixth) = 6%nat
  /\ socket (fst sixth) = socket (fst probed)
  /\ reconnectAttempts (fst sixth) = 10.
Proof. vm_compute. repeat split. Qed.

Lemma provider_listener_returns data (st : Provider.State) :
  exists st', emit "connection" data degraded_service st = Returned st'.
Proof. eexists. vm_compute. reflexivity. Defined.

Lemma reconnect_degrades_to_bounded_polling_witness :
  reconnectAttempts
    (fst (run signed_in (probe_cycles 8) degraded_service Provider.initial)) = 10
  /\ Z.of_nat
       (sockets_created
          (fst (run signed_in (probe_cycles 8) degraded_service Provider.initial)))
     = 6.
Proof.
  pose proof (reconnect_degrades_to_bounded_polling signed_in 0%nat 0%nat
                1%nat 8%nat degraded_service Provider.initial) as H.
  cbn zeta in H.
  destruct H as (_ & _ & _ & Ha & Hs & _).
  - exists "token-of-alice". repeat split.
  - vm_compute; reflexivity.
  - vm_compute; reflexivity.
  - apply provider_listener_returns.
  - vm_compute; repeat constructor.
  - split.
    + etransitivity; [exact Ha | vm_compute; reflexivity].
    + etransitivity; [exact Hs | vm_compute; reflexivity].
Defined.

End ReconnectExamples.

(** ** Cursors of the provider *)
Section Cursors.
Import Wire Samples Provider.

Lemma schedule_In tm q : In tm (schedule tm q).
Proof.
  induction q as [|x q IH]; simpl; [left; reflexivity|].
  destruct (due x <=? due tm); simpl; auto.
Qed.

Lemma schedule_In_inv tm x q : In x (schedule tm q) -> x = tm \/ In x q.
Proof.
  induction q as [|y q IH]; simpl.
  - intros [<-|[]]. left; reflexivity.
  - destruct (due y <=? due tm); simpl.
    + intros [<-|H]; [right; left; reflexivity|].
      destruct (IH H); auto.
    + intros [<-|[<-|H]]; auto.
Qed.

Lemma schedule_sorted tm q :
  StronglySorted by_due q -> StronglySorted by_due (schedule tm q).
Proof.
  induction 1 as [|x q Hs IH Hall]; simpl.
  - constructor; constructor.
  - destruct (due x <=? due tm) eqn:Hle.
    + apply Z.leb_le in Hle. constructor; [exact IH|].
      apply List.Forall_forall. intros y Hy.
      destruct (schedule_In_inv _ _ _ Hy) as [->|Hin]; [exact Hle|].
      rewrite List.Forall_forall in Hall. apply Hall, Hin.
    + apply Z.leb_gt in Hle. constructor; [constructor; assumption|].
      constructor; [unfold by_due; lia|].
      rewrite List.Forall_forall in Hall |- *. intros y Hy.
      specialize (Hall y Hy). unfold by_due in *. lia.
Qed.

Lemma fire_due_keeps_absent t q (cs : gmap string CursorPosition) k :
  cs !! k = None -> snd (fire_due t q cs) !! k = None.
Proof.
  revert cs. induction q as [|x q IH]; intros cs Hk; simpl; [exact Hk|].
  destruct (due x <=? t); [|exact Hk].
  apply IH. destruct (decide (victim x = k)) as [->|Hne].
  - apply lookup_delete_eq.
  - rewrite lookup_delete_ne by exact Hne. exact Hk.
Qed.

Lemma fire_due_deletes t q (cs : gmap string CursorPosition) tm :
  StronglySorted by_due q -> In tm q -> due tm <= t ->
  snd (fire_due t q cs) !! victim tm = None.
Proof.
  intros Hs. revert cs. induction Hs as [|x q Hs IH Hall]; intros cs Hin Hdue.
  - destruct Hin.
  - simpl. destruct Hin as [->|Hin].
    + rewrite (proj2 (Z.leb_le _ _) Hdue).
      apply fire_due_keeps_absent, lookup_delete_eq.
    + rewrite List.Forall_forall in Hall. specialize (Hall tm Hin).
      unfold by_due in Hall.
      rewrite (proj2 (Z.leb_le (due x) t)) by lia.
      apply IH; assumption.
Qed.

(** X2: the part of C8 the code keeps: 3000 ms after an update, with the
    timer queue in due order, the cursor of that user is not in the
    map. *)
Lemma cursor_absent_3000_after_update t c st :
  clock st <= t -> StronglySorted by_due (timeouts st) ->
  cursors (elapse (t + 3000) (cursorMoveAt t c st)) !! cur_userId c = None.
Proof.
  intros Hclock Hsorted.
  unfold cursorMoveAt, elapse at 2.
  rewrite (proj2 (Z.ltb_ge t (clock st))) by lia.
  set (r := fire_due t (timeouts st) (cursors st)).
  unfold onCursorMove, elapse. cbn [clock timeouts cursors].
  rewrite (proj2 (Z.ltb_ge (t + 3000) t)) by lia.
  cbn [cursors].
  set (tm := {| due := t + 3000; victim := cur_userId c |}).
  change (cur_userId c) with (victim tm).
  apply fire_due_deletes.
  - apply schedule_sorted.
    subst r. clear tm. revert Hsorted. generalize (cursors st).
    induction (timeouts st) as [|x q IH]; intros cs Hs; simpl; [constructor|].
    destruct (due x <=? t); [|exact Hs].
    apply IH. inversion Hs; assumption.
  - apply schedule_In.
  - simpl. lia.
Qed.

Lemma cursor_absent_3000_after_update_witness :
  cursors (elapse (2000 + 3000)
             (cursorMoveAt 2000 (cursor_of_bob 20 20)
                (cursorMoveAt 0 (cursor_of_bob 10 10) initial)))
    !! cur_userId (cursor_of_bob 20 20) = None.
Proof.
  apply (cursor_absent_3000_after_update 2000 (cursor_of_bob 20 20)
           (cursorMoveAt 0 (cursor_of_bob 10 10) initial)).
  - vm_compute. discriminate.
  - vm_compute. repeat constructor.
Defined.

(** C8 at two updates 2000 ms apart. The cursor of bob is set at time 0
    and again at time 2000. At 2999 it is still shown; at 3000 the
    timeout of the first update deletes it, 1000 ms after the latest
    update, and the timeout of the second, due at 5000, is still
    pending. *)
Theorem cursor_removed_1000_after_latest_update :
  let st1 := cursorMoveAt 0 (cursor_of_bob 10 10) initial in
  let st2 := cursorMoveAt 2000 (cursor_of_bob 20 20) st1 in
  timeouts st2 = [ {| due := 3000; victim := "bob" |};
                   {| due := 5000; victim := "bob" |} ]
  /\ cursors (elapse 2999 st2) !! "bob" = Some (cursor_of_bob 20 20)
  /\ cursors (elapse 3000 st2) !! "bob" = None
  /\ timeouts (elapse 3000 st2) = [ {| due := 5000; victim := "bob" |} ].
Proof. vm_compute. repeat split. Qed.

End Cursors.

(** ** More on the offline queue *)
Section OfflineProviderFacts.
Import Todos Wire Offline Samples.

Lemma enqueueAll_entries ops prev :
  enqueueAll ops prev
  = prev ++ map (fun op => {| qi_action := qi_action (snd op);
                              qi_data := qi_data (snd op);
                              qi_id := Some (JS.toString (fst op)) |}) ops.
Proof.
  unfold enqueueAll. revert prev.
  induction ops as [|op ops IH]; intros prev; simpl.
  - rewrite app_nil_r. reflexivity.
  - rewrite IH. unfold addToSyncQueue. rewrite <- app_assoc. reflexivity.
Qed.

(** X3: removing by the identifier of millisecond [t] drops exactly the
    entries that were enqueued at [t], all of them, and keeps every other
    entry in order. *)
Theorem remove_drops_the_entries_of_one_millisecond t ops prev :
  removeFromSyncQueue (JS.toString t) (enqueueAll ops prev)
  = removeFromSyncQueue (JS.toString t) prev
    ++ enqueueAll (List.filter (fun op => negb (fst op =? t)) ops) [].
Proof.
  rewrite !enqueueAll_entries. cbn [app].
  unfold removeFromSyncQueue. rewrite List.filter_app. f_equal.
  induction ops as [|[now item] ops IH]; [reflexivity|].
  cbn [map List.filter fst snd]. rewrite IH. clear IH.
  unfold has_other_id at 1. cbn [qi_id].
  destruct (now =? t) eqn:Hnow; cbn [negb].
  - apply Z.eqb_eq in Hnow. subst now.
    rewrite bool_decide_eq_false_2 by (intros H; apply H; reflexivity).
    reflexivity.
  - apply Z.eqb_neq in Hnow.
    rewrite bool_decide_eq_true_2; [reflexivity|].
    intros [= H]. apply Hnow. unfold JS.toString in H.
    apply (inj pretty) in H. exact H.
Qed.

(** X4: nothing but [removeFromSyncQueue] takes an entry off the queue.
    Through any run of the provider without a removal (going online or
    offline, [processSyncQueue], further enqueues) the queue holds what it
    held, followed by what was enqueued, in order: coming back online and
    [processSyncQueue] dispatch and retire nothing. *)
Theorem queue_is_never_drained ops st :
  forallb (fun op => negb (is_remove op)) ops = true ->
  map intent (off_syncQueue (offline_run ops st))
  = map intent (off_syncQueue st) ++ map intent (added ops).
Proof.
  revert st. induction ops as [|op ops IH]; intros st Hno; simpl.
  - rewrite app_nil_r. reflexivity.
  - simpl in Hno. apply andb_prop in Hno as [Hop Hrest].
    change (offline_run (op :: ops) st) with (offline_run ops (offline_step st op)).
    rewrite (IH _ Hrest).
    destruct op; simpl in *; try discriminate; try reflexivity.
    rewrite addToSyncQueue_intent, <- app_assoc. reflexivity.
Qed.

Lemma queue_is_never_drained_witness :
  map intent
    (off_syncQueue
       (offline_run [OpOffline; OpAdd 1700000000000 edit_7; OpOnline; OpProcess]
          (offline_initial true)))
  = [intent edit_7].
Proof.
  apply (queue_is_never_drained
           [OpOffline; OpAdd 1700000000000 edit_7; OpOnline; OpProcess]
           (offline_initial true)).
  reflexivity.
Defined.

End OfflineProviderFacts.

(** ** More on the local listeners *)
Section SubscriptionFacts.
Import Wire Realtime.
Context {W : Type}.
Implicit Types (svc : Service W) (cb : Callback W) (s : list (Callback W)) (w : W).

Lemma subscribers_on_other event event' cb svc :
  event <> event' ->
  subscribers (on event cb svc) event' = subscribers svc event'.
Proof.
  intros Hne. unfold subscribers, on. cbn [listeners with_listeners].
  rewrite lookup_insert_ne by exact Hne. reflexivity.
Qed.

Lemma subscribers_off event cb svc :
  subscribers (off event cb svc) event = set_delete cb (subscribers svc event).
Proof.
  unfold subscribers, off.
  destruct (listeners svc !! event) as [s|] eqn:Hs.
  - cbn [listeners with_listeners]. rewrite lookup_insert_eq. reflexivity.
  - rewrite Hs. reflexivity.
Qed.

Lemma subscribers_off_other event event' cb svc :
  event <> event' ->
  subscribers (off event cb svc) event' = subscribers svc event'.
Proof.
  intros Hne. unfold subscribers, off.
  destruct (listeners svc !! event) as [s|]; [|reflexivity].
  cbn [listeners with_listeners]. rewrite lookup_insert_ne by exact Hne.
  reflexivity.
Qed.

Lemma same_ref_true cb c : same_ref cb c = true <-> cb_ref c = cb_ref cb.
Proof. unfold same_ref. apply Nat.eqb_eq. Qed.

Lemma set_add_refs cb s :
  NoDup (map cb_ref s) -> NoDup (map cb_ref (set_add cb s)).
Proof.
  intros Hnd. unfold set_add.
  destruct (existsb (same_ref cb) s) eqn:Hex; [exact Hnd|].
  rewrite map_app. cbn [map]. apply NoDup_app. split; [exact Hnd|]. split.
  - intros r Hr Hin. apply list_elem_of_singleton in Hin. subst r.
    apply list_elem_of_fmap in Hr as (c & Hc & Hcin).
    assert (existsb (same_ref cb) s = true) as Hyes.
    { apply existsb_exists. exists c. split.
      - apply list_elem_of_In. exact Hcin.
      - apply same_ref_true. symmetry. exact Hc. }
    congruence.
  - apply NoDup_singleton.
Qed.

Lemma set_delete_refs cb s :
  NoDup (map cb_ref s) -> NoDup (map cb_ref (set_delete cb s)).
Proof.
  unfold set_delete. induction s as [|c s IH]; intros Hnd; [exact Hnd|].
  cbn [map] in Hnd. apply NoDup_cons in Hnd as [Hc Hnd].
  cbn [List.filter]. destruct (negb (same_ref cb c)); [|apply IH, Hnd].
  cbn [map]. apply NoDup_cons. split; [|apply IH, Hnd].
  intros Hin. apply Hc.
  apply list_elem_of_fmap in Hin as (c' & Hc' & Hin).
  apply list_elem_of_fmap. exists c'. split; [exact Hc'|].
  apply list_elem_of_In in Hin. apply List.filter_In in Hin as [Hin _].
  apply list_elem_of_In. exact Hin.
Qed.

Lemma set_delete_absent cb s : cb_ref cb ∉ map cb_ref (set_delete cb s).
Proof.
  intros Hin. apply list_elem_of_fmap in Hin as (c & Hc & Hin).
  unfold set_delete in Hin. apply list_elem_of_In in Hin.
  apply List.filter_In in Hin as [_ Hkeep].
  apply negb_true_iff in Hkeep.
  assert (same_ref cb c = true) by (apply same_ref_true; symmetry; exact Hc).
  congruence.
Qed.

Lemma invoked_among_refs s data w r :
  r ∈ invoked s data w -> r ∈ map cb_ref s.
Proof.
  revert w. induction s as [|c s IH]; intros w; cbn [invoked map].
  - intros H. exact H.
  - intros Hin. apply elem_of_cons in Hin as [->|Hin].
    + apply elem_of_cons. left. reflexivity.
    + apply elem_of_cons. right.
      destruct (cb_run c data w) as [w'|w' exn].
      * apply (IH w'), Hin.
      * apply elem_of_nil in Hin. destruct Hin.
Qed.

Lemma invoked_NoDup s data w :
  NoDup (map cb_ref s) -> NoDup (invoked s data w).
Proof.
  revert w. induction s as [|c s IH]; intros w Hnd; cbn [invoked].
  - apply NoDup_nil_2.
  - cbn [map] in Hnd. apply NoDup_cons in Hnd as [Hc Hnd].
    apply NoDup_cons. split.
    + destruct (cb_run c data w) as [w'|w' exn].
      * intros Hin. apply Hc. apply (invoked_among_refs _ _ _ _ Hin).
      * apply not_elem_of_nil.
    + destruct (cb_run c data w); [apply IH, Hnd | apply NoDup_nil_2].
Qed.

Lemma subscriptions_refs ops event :
  NoDup (map cb_ref (subscribers (subscriptions ops (new_service (W:=W))) event)).
Proof.
  unfold subscriptions.
  assert (forall svc, NoDup (map cb_ref (subscribers svc event)) ->
            NoDup (map cb_ref (subscribers (foldl subscription_step svc ops) event)))
    as Hgen.
  { induction ops as [|op ops IH]; intros svc Hnd; [exact Hnd|].
    cbn [foldl]. apply IH. destruct op as [e cb|e cb]; cbn [subscription_step].
    - destruct (decide (e = event)) as [->|Hne].
      + rewrite subscribers_on. apply set_add_refs, Hnd.
      + rewrite subscribers_on_other by exact Hne. exact Hnd.
    - destruct (decide (e = event)) as [->|Hne].
      + rewrite subscribers_off. apply set_delete_refs, Hnd.
      + rewrite subscribers_off_other by exact Hne. exact Hnd. }
  apply Hgen. unfold subscribers. cbn [listeners new_service].
  rewrite lookup_empty. apply NoDup_nil_2.
Qed.

(** X5: whatever calls of [on] and [off] were made on a new service, also
    repeated ones, one [emit] calls no callback twice. *)
Theorem emit_calls_each_callback_at_most_once ops event data w :
  NoDup (invoked (subscribers (subscriptions ops (new_service (W:=W))) event) data w).
Proof. apply invoked_NoDup, subscriptions_refs. Qed.

(** X6: after [off(event, callback)] an [emit] of that event does not call
    the callback, whatever was subscribed; the subscribers of the other
    events are as they were. *)
Theorem off_stops_delivery event cb svc data w :
  (cb_ref cb ∉ invoked (subscribers (off event cb svc) event) data w)
  /\ forall event', event <> event' ->
       subscribers (off event cb svc) event' = subscribers svc event'.
Proof.
  split.
  - intros Hin. apply invoked_among_refs in Hin.
    rewrite subscribers_off in Hin. exact (set_delete_absent _ _ Hin).
  - intros event' Hne. apply subscribers_off_other, Hne.
Qed.

End SubscriptionFacts.

(** ** More on the connection of the service *)
Section ConnectionFacts.
Import Wire Realtime.
Context {W : Type}.
Implicit Types (svc : Service W) (w : W).

Lemma outbound_not_connected env svc op :
  isConnected svc = false -> outbound env svc op = svc.
Proof.
  intros Hc.
  destruct op; cbn [outbound];
    unfold emitTodoChange, emitCursorPosition, emitTyping, joinRoom,
      leaveRoom, sendMessage;
    rewrite Hc; reflexivity.
Qed.

Lemma outbound_connected env svc op :
  isConnected svc = true ->
  isConnected (outbound env svc op) = true
  /\ exists msg, sent (outbound env svc op) = sent svc ++ [msg].
Proof.
  intros Hc.
  destruct op; cbn [outbound];
    unfold emitTodoChange, emitCursorPosition, emitTyping, joinRoom,
      leaveRoom, sendMessage;
    rewrite Hc; cbn [negb]; (split; [exact Hc | eexists; reflexivity]).
Qed.

Lemma outbound_run_not_connected env ops svc :
  isConnected svc = false -> outbound_run env ops svc = svc.
Proof.
  unfold outbound_run. revert svc.
  induction ops as [|op ops IH]; intros svc Hc; cbn [foldl]; [reflexivity|].
  rewrite (outbound_not_connected env svc op Hc). apply IH, Hc.
Qed.

(** X7: the functions that send to the server do not buffer. While the
    socket is not connected, any run of them leaves the service exactly as
    it was, so what was emitted is lost; while it is connected, each call
    hands one message to the socket, behind the earlier ones. *)
Theorem outbound_calls_are_sent_or_lost env ops svc :
  if isConnected svc
  then length (sent (outbound_run env ops svc))
       = (length (sent svc) + length ops)%nat
       /\ take (length (sent svc)) (sent (outbound_run env ops svc)) = sent svc
  else outbound_run env ops svc = svc.
Proof.
  unfold outbound_run. destruct (isConnected svc) eqn:Hc.
  - revert svc Hc. induction ops as [|op ops IH]; intros svc Hc; cbn [foldl].
    + split; [cbn; lia | apply firstn_all].
    + destruct (outbound_connected env svc op Hc) as [Hc' [msg Hmsg]].
      destruct (IH _ Hc') as [Hlen Htake]. rewrite Hmsg in Hlen, Htake.
      rewrite length_app in Hlen, Htake. cbn [length] in *.
      split; [lia|].
      apply (f_equal (take (length (sent svc)))) in Htake.
      rewrite take_take in Htake.
      rewrite Nat.min_l in Htake by lia.
      rewrite Htake, take_app_length. reflexivity.
  - apply (outbound_run_not_connected env ops svc Hc).
Qed.

(** X8: without a token no socket is ever created. From a service that
    holds no socket, whatever socket and interval events follow, the socket
    reference stays null and the service is never connected: [connect]
    fails fast, also when the polling interval calls it. *)
Theorem no_token_no_socket env evs svc w :
  token env = None \/ token env = Some "" ->
  socket svc = None ->
  socket (fst (run env evs svc w)) = None
  /\ sockets_created (fst (run env evs svc w)) = sockets_created svc
  /\ isConnected (fst (run env evs svc w)) = false.
Proof.
  intros Htok.
  assert (Hconn : forall s : Service W, connect env s = s).
  { intros s. unfold connect. destruct (isConnected s); [reflexivity|].
    destruct Htok as [-> | ->]; reflexivity. }
  revert svc w. induction evs as [|ev evs IH]; intros svc w Hs; cbn [run].
  - cbn [fst]. unfold isConnected. rewrite Hs. auto.
  - assert (socket (fst (step env ev svc w)) = None
            /\ sockets_created (fst (step env ev svc w)) = sockets_created svc)
      as [Hs' Hn'].
    { destruct ev as [sid e|iv]; cbn [step].
      - replace (transport sid e svc) with svc
          by (unfold transport; rewrite Hs; reflexivity).
        destruct e; cbn [handle];
          repeat match goal with
                 | |- context [if ?b then _ else _] => destruct b
                 end;
          cbn [fst socket sockets_created with_attempts useFallbackPolling];
          (split; [assumption | reflexivity]).
      - destruct (registered iv svc); [|split; [assumption | reflexivity]].
        unfold pollTick, isConnected. rewrite Hs.
        destruct (emit _ _ svc w); [|split; [assumption | reflexivity]].
        match goal with
        | |- context [if ?b then _ else _] => destruct b
        end; cbn [fst]; [|split; [assumption | reflexivity]].
        rewrite Hconn. split; [assumption | reflexivity]. }
    destruct (IH _ (world_of (snd (step env ev svc w))) Hs') as (H1 & H2 & H3).
    rewrite H1, H2, H3, Hn'. auto.
Qed.

Lemma iter_connect_connected env k svc :
  isConnected svc = true -> Nat.iter k (connect env) svc = svc.
Proof.
  intros Hc. induction k as [|k IH]; [reflexivity|].
  rewrite Nat.iter_succ, IH. unfold connect. rewrite Hc. reflexivity.
Qed.

(** X9: [connect] is a no-op only once the socket is connected. Called
    [k] times while the socket is still connecting, it creates [k] sockets,
    each replacing the one before, which is left behind undisconnected;
    listeners, failure count and sent messages are not touched. *)
Theorem connect_while_connecting_replaces_the_socket env k svc :
  usable env ->
  if isConnected svc
  then Nat.iter k (connect env) svc = svc
  else sockets_created (Nat.iter k (connect env) svc)
       = (sockets_created svc + k)%nat
       /\ isConnected (Nat.iter k (connect env) svc) = false
       /\ (forall n, k = S n ->
             sock_id <$> socket (Nat.iter k (connect env) svc)
             = Some (sockets_created svc + n)%nat)
       /\ listeners (Nat.iter k (connect env) svc) = listeners svc
       /\ reconnectAttempts (Nat.iter k (connect env) svc) = reconnectAttempts svc
       /\ sent (Nat.iter k (connect env) svc) = sent svc.
Proof.
  intros Henv. destruct (isConnected svc) eqn:Hc.
  - apply iter_connect_connected, Hc.
  - induction k as [|k IH].
    + cbn. repeat split; try lia; try assumption; try discriminate.
    + destruct IH as (Hn & Hc' & Hid & Hl & Ha & Hs).
      rewrite Nat.iter_succ, connect_fresh_socket by assumption.
      cbn [sockets_created socket listeners reconnectAttempts sent isConnected
             sock_connected sock_id fmap option_fmap option_map].
      rewrite Hn, Hl, Ha, Hs. repeat split; try lia.
      intros n [= <-]. reflexivity.
Qed.

(** X10: once the socket the service holds has connected, the failure
    count is 0 and the service is connected; the next time a polling
    interval fires it is cleared, without telling the listeners anything
    and without another connect, and it never fires again. *)
Theorem polling_stops_after_connect env iv svc w s :
  socket svc = Some s ->
  let up := step env (SocketEv (sock_id s) ev_connect) svc w in
  let tick := step env (IntervalEv iv) (fst up) (world_of (snd up)) in
  isConnected (fst up) = true
  /\ reconnectAttempts (fst up) = 0
  /\ registered iv (fst tick) = false
  /\ snd tick = Returned (world_of (snd up))
  /\ sockets_created (fst tick) = sockets_created svc
  /\ forall w', step env (IntervalEv iv) (fst tick) w' = (fst tick, Returned w').
Proof.
  intros Hs up tick.
  assert (Hup : fst up
                = with_attempts 0
                    (with_socket
                       (Some {| sock_id := sock_id s; sock_connected := true;
                                sock_reconnectionDelay := sock_reconnectionDelay s;
                                sock_reconnectionAttempts := sock_reconnectionAttempts s |})
                       svc)).
  { subst up. cbn [step]. unfold transport. rewrite Hs, Nat.eqb_refl.
    reflexivity. }
  assert (Hcon : isConnected (fst up) = true) by (rewrite Hup; reflexivity).
  assert (Hcleared : forall i (l : list Interval),
             existsb (fun x => Nat.eqb (iv_id x) i)
               (List.filter (fun x => negb (Nat.eqb (iv_id x) i)) l) = false).
  { intros i l. induction l as [|x l IH]; [reflexivity|].
    cbn [List.filter]. destruct (Nat.eqb (iv_id x) i) eqn:E; cbn [negb].
    - exact IH.
    - cbn [existsb]. rewrite E, IH. reflexivity. }
  assert (Htick : fst tick = (if registered iv (fst up)
                              then clearInterval iv (fst up) else fst up)
                  /\ snd tick = Returned (world_of (snd up))).
  { subst tick. cbn [step]. destruct (registered iv (fst up)); [|auto].
    unfold pollTick. rewrite Hcon. auto. }
  destruct Htick as [Hft Hst].
  assert (Hreg : registered iv (fst tick) = false).
  { rewrite Hft. destruct (registered iv (fst up)) eqn:E; [|exact E].
    unfold registered, clearInterval. cbn [intervals with_intervals].
    apply Hcleared. }
  split; [exact Hcon|]. split; [rewrite Hup; reflexivity|].
  split; [exact Hreg|]. split; [exact Hst|]. split.
  - rewrite Hft. destruct (registered iv (fst up)); rewrite Hup; reflexivity.
  - intros w'. cbn [step]. rewrite Hreg. reflexivity.
Qed.

End ConnectionFacts.

(** ** The provider behind the service *)
Section ProviderFacts.
Import Wire Realtime Samples.

Lemma connect_listeners env (svc : Service Provider.State) :
  listeners (connect env svc) = listeners svc.
Proof.
  unfold connect. destruct (isConnected svc); [reflexivity|].
  destruct (token env) as [t|]; [|reflexivity].
  destruct (String.eqb t EmptyString); [reflexivity|].
  destruct (io_throws env); reflexivity.
Qed.

Lemma transport_listeners sid e (svc : Service Provider.State) :
  listeners (transport sid e svc) = listeners svc.
Proof.
  unfold transport. destruct (socket svc) as [s|], e; try reflexivity;
    destruct (Nat.eqb _ _); reflexivity.
Qed.

Lemma step_connect_listeners env sid (svc : Service Provider.State) st :
  listeners (fst (step env (SocketEv sid ev_connect) svc st)) = listeners svc.
Proof.
  cbn [step handle fst]. cbn [listeners with_attempts].
  apply transport_listeners.
Qed.

Lemma live_service_listeners :
  listeners live_service = listeners (Provider.setupListeners new_service).
Proof.
  unfold live_service.
  rewrite step_connect_listeners, connect_listeners. reflexivity.
Qed.

(** X11: with the listeners of the provider registered, the inbound
    ['todo:created'], ['todo:updated'] and ['todo:deleted'] messages, of
    whatever socket, are appended to [todoUpdates] in arrival order; the
    list is never pruned, and the service and the rest of the provider's
    state are left as they were. *)
Theorem inbound_todo_events_accumulate env sid msgs
    (svc : Service Provider.State) (st : Provider.State) :
  Forall (fun m => fst m ∈ ["todo:created"; "todo:updated"; "todo:deleted"]) msgs ->
  listeners svc = listeners (Provider.setupListeners new_service) ->
  let r := run env (Provider.todo_messages sid msgs) svc st in
  fst r = svc
  /\ Provider.todoUpdates (snd r) = Provider.todoUpdates st ++ map snd msgs
  /\ Provider.cursors (snd r) = Provider.cursors st
  /\ Provider.activeUsers (snd r) = Provider.activeUsers st
  /\ Provider.isConnected (snd r) = Provider.isConnected st
  /\ Provider.typingUsers (snd r) = Provider.typingUsers st.
Proof.
  intros Hnames Hl. cbn zeta. revert st.
  induction Hnames as [|[name u] msgs Hname _ IH]; intros st.
  - cbn. rewrite app_nil_r. auto 10.
  - cbn [fst] in Hname.
    destruct (provider_todo_listeners name Hname) as [ref Hsub].
    assert (Hstep : step env (SocketEv sid (ev_message name (DTodo u))) svc st
                    = (svc, Returned (Provider.onTodoEvent (DTodo u) st))).
    { cbn [step].
      replace (transport sid (ev_message name (DTodo u)) svc) with svc
        by (unfold transport; destruct (socket svc); reflexivity).
      cbn [handle].
      rewrite bool_decide_eq_true_2 by (apply todo_names_relayed, Hname).
      unfold emit. rewrite Hl, Hsub. reflexivity. }
    cbn [Provider.todo_messages map run fst snd].
    rewrite Hstep. cbn [fst snd world_of].
    destruct (IH (Provider.onTodoEvent (DTodo u) st))
      as (H1 & H2 & H3 & H4 & H5 & H6).
    unfold Provider.todo_messages in *.
    rewrite H1, H2, H3, H4, H5, H6. cbn. rewrite <- app_assoc. auto 10.
Qed.

Lemma inbound_todo_events_accumulate_witness :
  Provider.todoUpdates
    (snd (run signed_in
            (Provider.todo_messages 3
               [("todo:created", event_on_7 "bob" 1000);
                ("todo:deleted", event_on_7 "carol" 900)])
            live_service Provider.initial))
  = [event_on_7 "bob" 1000; event_on_7 "carol" 900].
Proof.
  pose proof (inbound_todo_events_accumulate signed_in 3%nat
                [("todo:created", event_on_7 "bob" 1000);
                 ("todo:deleted", event_on_7 "carol" 900)]
                live_service Provider.initial) as H.
  cbn zeta in H. destruct H as (_ & H & _).
  - repeat constructor; cbn [fst]; set_solver.
  - exact live_service_listeners.
  - exact H.
Defined.

(** X12: a ['connect'] event of a socket the service has replaced (every
    [connect] while connecting, also the one of each polling cycle, leaves
    such sockets behind) resets the failure count and is announced to the
    listeners as connected, so the provider shows the connection as up,
    while the service itself is not connected and drops whatever is
    emitted. *)
Theorem connect_of_replaced_socket_is_announced env sid ops
    (svc : Service Provider.State) (st : Provider.State) s :
  socket svc = Some s -> sock_id s <> sid -> sock_connected s = false ->
  listeners svc = listeners (Provider.setupListeners new_service) ->
  let r := step env (SocketEv sid ev_connect) svc st in
  Provider.isConnected (world_of (snd r)) = true
  /\ isConnected (fst r) = false
  /\ reconnectAttempts (fst r) = 0
  /\ outbound_run env ops (fst r) = fst r.
Proof.
  intros Hs Hsid Hdown Hl. cbn zeta.
  assert (Htr : transport sid ev_connect svc = svc).
  { unfold transport. rewrite Hs.
    rewrite (proj2 (Nat.eqb_neq _ _) Hsid). reflexivity. }
  cbn [step]. rewrite Htr. cbn [handle fst snd].
  assert (Hc : isConnected (with_attempts 0 svc) = false).
  { unfold isConnected. cbn [socket with_attempts]. rewrite Hs. exact Hdown. }
  split; [|split; [exact Hc | split; [reflexivity|]]].
  - unfold emit. cbn [listeners with_attempts]. rewrite Hl. vm_compute. reflexivity.
  - apply outbound_run_not_connected, Hc.
Qed.

(** With only the listeners of the provider registered, [disconnect] of
    the provider returns, whatever the socket: the listener of
    ['connection'] does not throw. *)
Lemma provider_disconnect_returns (svc : Service Provider.State) st :
  listeners svc = listeners (Provider.setupListeners new_service) ->
  exists svc' st',
    Provider.disconnect svc st = (svc', Returned st')
    /\ listeners svc' = ∅
    /\ socket svc' = None
    /\ Provider.todoUpdates st' = Provider.todoUpdates st.
Proof.
  intros Hl. unfold Provider.disconnect, disconnect.
  destruct (socket svc) as [s|] eqn:Hs.
  - destruct (sock_connected s).
    + unfold emit. cbn [listeners with_socket]. rewrite Hl.
      replace (listeners (Provider.setupListeners new_service) !! "connection")
        with (Some [Provider.listener 0 Provider.onConnection])
        by (vm_compute; reflexivity).
      cbn. eauto 10.
    + cbn. eauto 10.
  - cbn. eauto 10.
Qed.

Lemma unheard_messages env sid msgs (svc : Service Provider.State) st :
  listeners svc = ∅ ->
  run env (Provider.todo_messages sid msgs) svc st = (svc, st).
Proof.
  intros Hl. unfold Provider.todo_messages.
  induction msgs as [|m msgs IH]; [reflexivity|].
  cbn [map run step].
  replace (transport sid (ev_message (fst m) (DTodo (snd m))) svc) with svc
    by (unfold transport; destruct (socket svc); reflexivity).
  cbn [handle]. unfold emit. rewrite Hl, lookup_empty.
  destruct (bool_decide _); cbn [fst snd world_of]; exact IH.
Qed.

(** X29: signing in unregisters the listeners of the provider. When
    [isAuthenticated] changes, the cleanup of the effect calls
    [disconnect()], which clears the listener map of the service, and the
    listeners are registered once only, when the provider is mounted. After
    the change the service holds no listener: every inbound todo message
    is dropped, and [todoUpdates] stays as it was. *)
Theorem sign_in_unregisters_the_listeners env isAuthenticated sid msgs
    (svc : Service Provider.State) (st : Provider.State) :
  listeners svc = listeners (Provider.setupListeners new_service) ->
  exists svc' st',
    Provider.authChanged env isAuthenticated svc st = (svc', Returned st')
    /\ listeners svc' = ∅
    /\ run env (Provider.todo_messages sid msgs) svc' st' = (svc', st')
    /\ Provider.todoUpdates st' = Provider.todoUpdates st.
Proof.
  intros Hl.
  destruct (provider_disconnect_returns svc st Hl)
    as (svc1 & st1 & Hd & Hl1 & Hs1 & Ht1).
  unfold Provider.authChanged. rewrite Hd. unfold Provider.authEffect.
  destruct isAuthenticated.
  - exists (connect env svc1), st1.
    assert (Hl2 : listeners (connect env svc1) = ∅)
      by (rewrite connect_listeners; exact Hl1).
    split; [reflexivity|]. split; [exact Hl2|].
    split; [apply unheard_messages, Hl2 | exact Ht1].
  - assert (Hd2 : Provider.disconnect svc1 st1
                  = (with_listeners ∅ svc1,
                     Returned {| Provider.isConnected := false;
                                 Provider.activeUsers := [];
                                 Provider.todoUpdates := Provider.todoUpdates st1;
                                 Provider.cursors := ∅;
                                 Provider.typingUsers := ∅;
                                 Provider.clock := Provider.clock st1;
                                 Provider.timeouts := Provider.timeouts st1 |})).
    { unfold Provider.disconnect, disconnect. rewrite Hs1. reflexivity. }
    rewrite Hd2. eexists _, _. split; [reflexivity|].
    split; [reflexivity|].
    split; [apply unheard_messages; reflexivity | exact Ht1].
Qed.

Lemma sign_in_unregisters_the_listeners_witness :
  exists svc' st',
    Provider.authChanged signed_in true live_service Provider.initial
    = (svc', Returned st')
    /\ listeners svc' = ∅
    /\ run signed_in
         (Provider.todo_messages 1 [("todo:created", event_on_7 "bob" 1000)])
         svc' st'
       = (svc', st')
    /\ Provider.todoUpdates st' = Provider.todoUpdates Provider.initial.
Proof.
  apply (sign_in_unregisters_the_listeners signed_in true 1%nat
           [("todo:created", event_on_7 "bob" 1000)]
           live_service Provider.initial).
  exact live_service_listeners.
Defined.

End ProviderFacts.

(** ** Cursors and presence of the provider *)
Section PresenceFacts.
Import Wire Provider Samples.

Lemma fire_due_remaining t q (cs : gmap string CursorPosition) tm :
  In tm (fst (fire_due t q cs)) -> In tm q.
Proof.
  revert cs. induction q as [|x q IH]; intros cs; cbn [fire_due]; [auto|].
  destruct (due x <=? t); [|auto].
  intros H. right. apply (IH _ H).
Qed.

Lemma fire_due_lookup t q (cs : gmap string CursorPosition) u c :
  snd (fire_due t q cs) !! u = Some c ->
  cs !! u = Some c
  /\ forall tm, In tm q -> victim tm = u -> In tm (fst (fire_due t q cs)).
Proof.
  revert cs. induction q as [|x q IH]; intros cs; cbn [fire_due].
  - cbn. intros H. split; [exact H | intros tm []].
  - destruct (due x <=? t) eqn:Hd.
    + intros H. destruct (IH _ H) as [Hdel Hrest].
      destruct (decide (victim x = u)) as [Hx|Hx].
      * subst u. rewrite lookup_delete_eq in Hdel. discriminate Hdel.
      * rewrite lookup_delete_ne in Hdel by exact Hx.
        split; [exact Hdel|].
        intros tm [<-|Hin] Hv; [contradiction | apply Hrest; assumption].
    + cbn. intros H. split; [exact H | auto].
Qed.

Lemma expiring_elapse t st : expiring st -> expiring (elapse t st).
Proof.
  intros [Hdue Hcur]. unfold elapse.
  destruct (t <? clock st) eqn:Ht; [split; assumption|].
  apply Z.ltb_ge in Ht. split; cbn [timeouts clock cursors].
  - intros tm Hin. apply fire_due_remaining in Hin.
    specialize (Hdue tm Hin). lia.
  - intros u c Hu. apply fire_due_lookup in Hu as [Hu Hkeep].
    destruct (Hcur u c Hu) as (tm & Hin & Hv).
    exists tm. split; [apply Hkeep; assumption | exact Hv].
Qed.

Lemma schedule_In_old tm x q : In x q -> In x (schedule tm q).
Proof.
  induction q as [|y q IH]; cbn [schedule]; [intros []|].
  destruct (due y <=? due tm); cbn [In]; intros [<-|H]; auto.
Qed.

Lemma expiring_onCursorMove c st :
  expiring st -> expiring (onCursorMove (DCursor c) st).
Proof.
  intros [Hdue Hcur]. split; cbn [onCursorMove timeouts clock cursors].
  - intros tm Hin. apply schedule_In_inv in Hin as [->|Hin];
      [cbn [due]; lia | apply Hdue, Hin].
  - intros u c' Hu. destruct (decide (cur_userId c = u)) as [<-|Hne].
    + eexists. split; [apply schedule_In | reflexivity].
    + rewrite lookup_insert_ne in Hu by exact Hne.
      destruct (Hcur u c' Hu) as (tm & Hin & Hv).
      exists tm. split; [apply schedule_In_old, Hin | exact Hv].
Qed.

Lemma expiring_run es st : expiring st -> expiring (cursor_run es st).
Proof.
  unfold cursor_run. revert st.
  induction es as [|e es IH]; intros st Hst; cbn [foldl]; [exact Hst|].
  apply IH. destruct e as [t c|t]; cbn [cursor_step].
  - unfold cursorMoveAt. apply expiring_onCursorMove, expiring_elapse, Hst.
  - apply expiring_elapse, Hst.
Qed.

Lemma fire_due_all t q (cs : gmap string CursorPosition) tm :
  (forall x, In x q -> due x <= t) -> In tm q ->
  snd (fire_due t q cs) !! victim tm = None.
Proof.
  revert cs. induction q as [|x q IH]; intros cs Hall Hin; [destruct Hin|].
  cbn [fire_due]. rewrite (proj2 (Z.leb_le _ _) (Hall x (or_introl eq_refl))).
  destruct Hin as [->|Hin].
  - apply fire_due_keeps_absent, lookup_delete_eq.
  - apply IH; [|exact Hin]. intros y Hy. apply Hall. right. exact Hy.
Qed.

(** X13: whatever cursor messages arrived and however the clock advanced
    since the provider was mounted, 3000 ms of silence empty the cursor
    map: no cursor is shown longer than 3000 ms after the last message. *)
Theorem cursors_vanish_after_silence es :
  cursors (elapse (clock (cursor_run es initial) + 3000) (cursor_run es initial))
  = ∅.
Proof.
  assert (Hinv : expiring (cursor_run es initial)).
  { apply expiring_run. split; cbn; [intros tm [] | intros u c H].
    rewrite lookup_empty in H. discriminate H. }
  set (st := cursor_run es initial) in *. destruct Hinv as [Hdue Hcur].
  apply map_eq. intros u. rewrite lookup_empty.
  unfold elapse. rewrite (proj2 (Z.ltb_ge _ _)) by lia. cbn [cursors].
  destruct (cursors st !! u) as [c|] eqn:Hu.
  - destruct (Hcur u c Hu) as (tm & Hin & <-).
    apply fire_due_all; [exact Hdue | exact Hin].
  - apply fire_due_keeps_absent, Hu.
Qed.

Lemma joins_append k p st :
  activeUsers (Nat.iter k (onUserJoined (DPresence p)) st)
  = activeUsers st ++ replicate k p.
Proof.
  induction k as [|k IH]; [cbn; rewrite app_nil_r; reflexivity|].
  rewrite Nat.iter_succ. cbn [onUserJoined activeUsers with_activeUsers].
  rewrite IH, <- app_assoc. f_equal.
  clear. induction k as [|k IH]; [reflexivity|].
  cbn [replicate app]. rewrite IH. reflexivity.
Qed.

(** X14: presence is not kept per user. A user whose ['user:joined']
    arrived [k] times is listed and counted [k] times in [onlineCount],
    and one ['user:left'] removes all entries of that user and only
    those. *)
Theorem presence_counts_joins_not_users k p st :
  onlineCount (Nat.iter k (onUserJoined (DPresence p)) st)
  = onlineCount st + Z.of_nat k
  /\ activeUsers (onUserLeft (DPresence p)
                    (Nat.iter k (onUserJoined (DPresence p)) st))
     = List.filter (fun u => negb (String.eqb (up_userId u) (up_userId p)))
                   (activeUsers st).
Proof.
  split.
  - unfold onlineCount. rewrite joins_append, length_app, length_replicate. lia.
  - cbn [onUserLeft activeUsers with_activeUsers].
    rewrite joins_append, List.filter_app.
    replace (List.filter _ (replicate k p)) with (@nil UserPresence).
    + apply app_nil_r.
    + induction k as [|k IH]; [reflexivity|].
      cbn [replicate List.filter]. rewrite String.eqb_refl. exact IH.
Qed.

End PresenceFacts.

(** ** More on the mutations of the page *)
Section MutationFacts.
Import Todos Wire Offline Samples TodoListPage.

Lemma mutate_service {A B : Type}
    (mutationFn : Run B -> list QueueItem -> Promise A * list QueueItem)
    (onSuccess : A -> World -> World) (after : A -> World -> Realtime.Service Provider.State)
    first retry w :
  (forall a q, service (onSuccess a (with_syncQueue q w)) = after a w) ->
  match mutate mutationFn onSuccess first retry w with
  | (Success a, w') => service w' = after a w
  | (Failure _, w') => service w' = service w
  | (Paused, w') => service w' = service w
  end.
Proof.
  intros Hon. unfold mutate.
  destruct (canStart (run_client first)); [|reflexivity].
  destruct (mutationFn first (syncQueue w)) as [[a|e] q]; [apply Hon|].
  destruct (canContinue (run_client retry)); [|reflexivity].
  destruct (mutationFn retry q) as [[a|e'] q']; [apply Hon | reflexivity].
Qed.

Lemma broadcast_sent r env now type p (svc : Realtime.Service Provider.State) :
  Realtime.sent (broadcast r env now type p svc)
  = if realtimeConnected r && negb (isOffline r) && Realtime.isConnected svc
    then Realtime.sent svc
         ++ [ ("todo:change",
               Realtime.OTodoChange
                 {| upd_type := type; upd_todo := p;
                    upd_userId := Realtime.token_or_anonymous env;
                    upd_timestamp := now |}) ]
    else Realtime.sent svc.
Proof.
  unfold broadcast, Realtime.emitTodoChange.
  destruct (realtimeConnected r && negb (isOffline r)); cbn [andb]; [|reflexivity].
  destruct (Realtime.isConnected svc); reflexivity.
Qed.

(** X15: a mutation is broadcast exactly when it succeeded online with the
    realtime channel up and the socket connected, and then as one
    ['todo:change'] message carrying what the mutation resolved to, stamped
    with the session token. A failed mutation, a paused one, and every
    mutation made offline, sends nothing. *)
Theorem mutations_broadcast_only_online r env now m first retry w :
  match submit r env now m first retry w with
  | (Success p, w') =>
      Realtime.sent (service w')
      = if realtimeConnected r && negb (isOffline r)
           && Realtime.isConnected (service w)
        then Realtime.sent (service w)
             ++ [ ("todo:change",
                   Realtime.OTodoChange
                     {| upd_type := broadcast_type m; upd_todo := p;
                        upd_userId := Realtime.token_or_anonymous env;
                        upd_timestamp := now |}) ]
        else Realtime.sent (service w)
  | (Failure _, w') => service w' = service w
  | (Paused, w') => service w' = service w
  end.
Proof.
  destruct m as [n|t|i|t]; cbn [submit broadcast_type].
  - pose proof (mutate_service (createTodo_mutationFn r n)
                  (createTodo_onSuccess r env now)
                  (fun a w => broadcast r env now ty_create (whole a) (service w))
                  first retry w (fun a q => eq_refl)) as H.
    destruct (mutate _ _ first retry w) as [[a|e|] w']; cbn [as_payload];
      [rewrite H; apply broadcast_sent | exact H | exact H].
  - pose proof (mutate_service (updateTodo_mutationFn r t)
                  (updateTodo_onSuccess r env now)
                  (fun a w => broadcast r env now ty_update (whole a) (service w))
                  first retry w (fun a q => eq_refl)) as H.
    destruct (mutate _ _ first retry w) as [[a|e|] w']; cbn [as_payload];
      [rewrite H; apply broadcast_sent | exact H | exact H].
  - pose proof (mutate_service (deleteTodo_mutationFn r i)
                  (deleteTodo_onSuccess r env now)
                  (fun a w => broadcast r env now ty_delete (only_id a) (service w))
                  first retry w (fun a q => eq_refl)) as H.
    destruct (mutate _ _ first retry w) as [[a|e|] w']; cbn [as_payload];
      [rewrite H; apply broadcast_sent | exact H | exact H].
  - pose proof (mutate_service (toggleCompleted_mutationFn r t)
                  (toggleCompleted_onSuccess r env now)
                  (fun a w => broadcast r env now ty_toggle (whole a) (service w))
                  first retry w (fun a q => eq_refl)) as H.
    destruct (mutate _ _ first retry w) as [[a|e|] w']; cbn [as_payload];
      [rewrite H; apply broadcast_sent | exact H | exact H].
Qed.

(** X16: [queryFn] writes through. Whenever it resolves, the [localStorage]
    copy is exactly the list it returned, so that an offline query made
    afterwards returns the same list without the network; whenever it
    rejects, the copy is as it was. *)
Theorem queryFn_writes_through offline primary fallback stored :
  match queryFn offline primary fallback stored with
  | (Resolved l, stored') =>
      stored' = Some l
      /\ forall primary' fallback',
           queryFn true primary' fallback' stored' = (Resolved l, stored')
  | (Rejected _, stored') => stored' = stored
  end.
Proof.
  unfold queryFn.
  destruct offline, stored as [cached|];
    destruct primary as [e|[] [l|[l|]]]; try (split; reflexivity);
    destruct fallback as [e'|b [l'|[l'|]]]; try reflexivity;
    split; reflexivity.
Qed.

(** X17: when the primary endpoint failed, every todo [queryFn] returns
    comes from the fallback and is marked synced, whatever the status of
    the fallback response was. *)
Theorem fallback_todos_are_marked_synced primary fallback stored l stored' :
  failed primary = true ->
  queryFn false primary fallback stored = (Resolved l, stored') ->
  Forall (fun t => syncStatus t = Some synced) l.
Proof.
  intros Hp. unfold queryFn.
  assert (Hgoal : forall s0 : option (list Todo),
             (let '(p, _) :=
                match fallback with
                | NetworkError msg => (Rejected msg, s0)
                | Response _ (BObject (Some l0)) =>
                    (Resolved (map mark_synced l0), Some (map mark_synced l0))
                | Response _ _ =>
                    (Rejected "TypeError: data.todos is undefined", s0)
                end in p) = Resolved l ->
             Forall (fun t => syncStatus t = Some synced) l).
  { intros s0. destruct fallback as [e|b [l0|[l0|]]]; try discriminate.
    intros [= <-]. apply List.Forall_forall. intros t Ht.
    apply in_map_iff in Ht as (t0 & <- & _). reflexivity. }
  destruct primary as [e|[] body]; try discriminate Hp;
    destruct stored as [c|]; intros H;
    (eapply Hgoal; rewrite H; reflexivity).
Qed.

Lemma fallback_todos_are_marked_synced_witness :
  Forall (fun t => syncStatus t = Some synced) [mark_synced bread].
Proof.
  apply (fallback_todos_are_marked_synced unreachable
           (Response false (BObject (Some [bread]))) None
           [mark_synced bread] (Some [mark_synced bread])); reflexivity.
Defined.

End MutationFacts.

(** ** The list the page shows *)
Section ListFacts.
Import Todos Wire Offline Samples TodoListPage.

Lemma observed_setQueryData offline f w qc :
  qc = queryClient w ->
  default [] (setQueryData (todosKey offline) f qc !! todosKey offline ≫= q_data)
  = f (observed offline w).
Proof.
  intros ->. unfold setQueryData, observed. rewrite lookup_insert_eq. reflexivity.
Qed.

Lemma replace_todo_ids u l : map id (replace_todo u l) = map id l.
Proof.
  unfold replace_todo. rewrite map_map. apply map_ext_in. intros t _.
  destruct (id t =? id u) eqn:E; [|reflexivity].
  apply Z.eqb_eq in E. symmetry. exact E.
Qed.

Lemma replace_todo_find u l :
  find_todo (id u) (replace_todo u l)
  = match find_todo (id u) l with Some _ => Some u | None => None end.
Proof.
  unfold find_todo, replace_todo.
  induction l as [|t l IH]; [reflexivity|]. cbn [map List.find].
  destruct (id t =? id u) eqn:E.
  - rewrite Z.eqb_refl. reflexivity.
  - rewrite E. exact IH.
Qed.

Lemma replace_todo_absent u l :
  find_todo (id u) l = None -> replace_todo u l = l.
Proof.
  unfold find_todo, replace_todo.
  induction l as [|t l IH]; [reflexivity|]. cbn [map List.find].
  destruct (id t =? id u) eqn:E; [discriminate|].
  intros H. rewrite (IH H). reflexivity.
Qed.

(** X18: a successful update or toggle never adds, removes or reorders
    entries of the cached list (the data of the observed query, which the
    page then filters, sorts and pages): the cached list has the same
    identifiers in the same order, the todo of the updated identifier now
    being the resolved record. When no cached todo has that identifier, the
    cached list is left as it was and the update is dropped without
    notice. *)
Theorem update_keeps_the_shape_of_the_list r env now u w :
  let before := observed (isOffline r) w in
  let after := observed (isOffline r) (updateTodo_onSuccess r env now u w) in
  map id after = map id before
  /\ find_todo (id u) after
     = match find_todo (id u) before with Some _ => Some u | None => None end
  /\ (find_todo (id u) before = None -> after = before)
  /\ observed (isOffline r) (toggleCompleted_onSuccess r env now u w) = after.
Proof.
  cbn zeta.
  assert (Hobs : observed (isOffline r) (updateTodo_onSuccess r env now u w)
                 = replace_todo u (observed (isOffline r) w)).
  { unfold observed at 1. cbn [queryClient updateTodo_onSuccess].
    apply observed_setQueryData. reflexivity. }
  rewrite Hobs. split; [apply replace_todo_ids|].
  split; [apply replace_todo_find|]. split; [apply replace_todo_absent|].
  unfold observed at 1. cbn [queryClient toggleCompleted_onSuccess].
  apply observed_setQueryData. reflexivity.
Qed.

(** What the page shows is the cached list filtered: under the filter
    ["incomplete"] a toggle that completes a todo takes it out of view,
    though the cached list keeps it. *)
Example toggle_takes_the_todo_out_of_view :
  let done := {| id := 7; todo := "buy milk"; completed := true; userId := 1;
                 createdAt := None; updatedAt := None;
                 lastModified := Some 3000; syncStatus := Some synced |} in
  let w' := toggleCompleted_onSuccess (online_render [milk]) signed_in 3000
              done (a_world [milk]) in
  filtered (fun s => s) "" "incomplete" (observed false (a_world [milk])) = [milk]
  /\ observed false w' = [done]
  /\ filtered (fun s => s) "" "incomplete" (observed false w') = []
  /\ filtered (fun s => s) "" "completed" (observed false w') = [done].
Proof. vm_compute. repeat split. Qed.



(** X20: the stored copy is written from the list of the render, the
    cache from the cache. When two creates succeed from one render that
    showed the cached list, the cache holds both new todos but the
    [localStorage] copy only the second, and an offline query made from
    that copy no longer has the first. *)
Theorem two_creates_lose_one_in_storage r env now1 now2 a b w primary fallback :
  todosData r = observed (isOffline r) w ->
  let w2 := createTodo_onSuccess r env now2 b
              (createTodo_onSuccess r env now1 a w) in
  observed (isOffline r) w2 = b :: a :: observed (isOffline r) w
  /\ storedTodos w2 = Some (b :: observed (isOffline r) w)
  /\ fst (queryFn true primary fallback (storedTodos w2))
     = Resolved (b :: observed (isOffline r) w).
Proof.
  intros Hsync. cbn zeta.
  assert (H1 : observed (isOffline r)
                 (createTodo_onSuccess r env now2 b
                    (createTodo_onSuccess r env now1 a w))
               = b :: a :: observed (isOffline r) w).
  { unfold observed at 1. cbn [queryClient createTodo_onSuccess].
    unfold setQueryData at 1. rewrite lookup_insert_eq. cbn.
    unfold setQueryData. rewrite lookup_insert_eq. reflexivity. }
  split; [exact H1|].
  cbn [storedTodos createTodo_onSuccess]. rewrite Hsync.
  split; reflexivity.
Qed.

Lemma two_creates_lose_one_in_storage_witness :
  storedTodos
    (createTodo_onSuccess (online_render [milk]) signed_in 2 bread
       (createTodo_onSuccess (online_render [milk]) signed_in 1
          (a_todo 8 "buy eggs" false) (a_world [milk])))
  = Some [bread; milk].
Proof.
  pose proof (two_creates_lose_one_in_storage (online_render [milk]) signed_in
                1 2 (a_todo 8 "buy eggs" false) bread (a_world [milk])
                unreachable unreachable) as H.
  cbn zeta in H. destruct H as (_ & H & _).
  - vm_compute. reflexivity.
  - etransitivity; [exact H | vm_compute; reflexivity].
Defined.

End ListFacts.

(** ** Filtering and pagination of the page *)
Section PagingFacts.
Import Todos Samples TodoListPage.

Lemma includes_empty s : includes s "" = true.
Proof. unfold includes. destruct s; reflexivity. Qed.

Lemma filter_split {A : Type} (p q r : A -> bool) (l : list A) :
  (forall x, r x = p x || q x) -> (forall x, p x && q x = false) ->
  (length (List.filter p l) + length (List.filter q l)
   = length (List.filter r l))%nat.
Proof.
  intros Hr Hpq. induction l as [|x l IH]; [reflexivity|].
  cbn [List.filter]. rewrite Hr. specialize (Hpq x).
  destruct (p x), (q x); cbn [orb length] in *; try discriminate; lia.
Qed.

(** X21: for every search text, the todos shown under ["completed"] and
    under ["incomplete"] together are as many as under ["all"]; a status
    other than the four the page knows shows nothing; and with a lower-casing
    that keeps the empty string, the empty search under ["all"] shows every
    todo. *)
Theorem status_filters_split_the_list toLowerCase searchQuery data :
  (length (filtered toLowerCase searchQuery "completed" data)
   + length (filtered toLowerCase searchQuery "incomplete" data)
   = length (filtered toLowerCase searchQuery "all" data))%nat
  /\ (forall status,
         status ∉ ["all"; "completed"; "incomplete"; "pending"] ->
         filtered toLowerCase searchQuery status data = [])
  /\ (toLowerCase "" = "" -> filtered toLowerCase "" "all" data = data).
Proof.
  split; [|split].
  - unfold filtered. apply filter_split; intros t; unfold matches; cbn;
      destruct (includes _ _), (completed t); reflexivity.
  - intros status Hs. unfold filtered.
    assert (String.eqb status "all" = false
            /\ String.eqb status "completed" = false
            /\ String.eqb status "incomplete" = false
            /\ String.eqb status "pending" = false) as (H1 & H2 & H3 & H4).
    { repeat split; apply String.eqb_neq; intros ->; apply Hs; set_solver. }
    induction data as [|t data IH]; [reflexivity|].
    cbn [List.filter]. unfold matches at 1. rewrite H1, H2, H3, H4.
    rewrite andb_false_r. exact IH.
  - intros Hlow. unfold filtered.
    induction data as [|t data IH]; [reflexivity|].
    cbn [List.filter]. unfold matches at 1.
    rewrite Hlow, includes_empty. cbn. rewrite IH. reflexivity.
Qed.

Lemma paginated_window {A : Type} (page : Z) (l : list A) :
  1 <= page ->
  paginated page l = take 10 (drop (Z.to_nat ((page - 1) * 10)) l).
Proof.
  intros Hp. unfold paginated, slice, todosPerPage.
  rewrite (proj2 (Z.ltb_ge _ _)) by lia.
  rewrite (proj2 (Z.ltb_ge _ _)) by lia.
  destruct (Z.le_gt_cases (Z.of_nat (length l)) ((page - 1) * 10)) as [Hout|Hin].
  - rewrite Z.min_r, Z.min_r by lia.
    rewrite (drop_ge l (Z.to_nat (Z.of_nat (length l)))) by lia.
    rewrite (drop_ge l (Z.to_nat ((page - 1) * 10))) by lia.
    rewrite !take_nil. reflexivity.
  - rewrite (Z.min_l ((page - 1) * 10)) by lia.
    destruct (Z.le_gt_cases ((page - 1) * 10 + 10) (Z.of_nat (length l)))
      as [Hfull|Hlast].
    + rewrite Z.min_l by lia. f_equal. lia.
    + rewrite Z.min_r by lia.
      rewrite !take_ge; try reflexivity; rewrite length_drop; lia.
Qed.

Lemma chunks_concat {A : Type} (n : nat) (l : list A) :
  (length l <= n * 10)%nat ->
  concat (map (fun i => take 10 (drop (i * 10) l)) (seq 0 n)) = l.
Proof.
  revert l. induction n as [|n IH]; intros l Hlen.
  - destruct l; [reflexivity | cbn in Hlen; lia].
  - cbn [seq map concat]. cbn [Nat.mul drop]. rewrite <- seq_shift, map_map.
    rewrite (map_ext _ (fun i => take 10 (drop (i * 10) (drop 10 l)))).
    + rewrite IH by (rewrite length_drop; lia). apply take_drop.
    + intros i. rewrite drop_drop. f_equal.
Qed.

Lemma totalPages_table :
  forallb (fun n => JS.same (JS.Math_ceil (JS.div (JS.of_Z n) (JS.of_Z 10)))
                            (JS.of_Z ((n + 9) / 10)))
          (seqZ 0 1001)
  = true.
Proof. vm_compute. reflexivity. Qed.

Lemma same_eq x y : JS.same x y = true -> x = y.
Proof.
  destruct x as [a|a| |a m e], y as [b|b| |b m' e']; cbn; try discriminate.
  - intros H. apply Bool.eqb_prop in H. subst. reflexivity.
  - intros H. apply Bool.eqb_prop in H. subst. reflexivity.
  - reflexivity.
  - intros H. apply andb_prop in H as [H He]. apply andb_prop in H as [Ha Hm].
    apply Bool.eqb_prop in Ha. apply Pos.eqb_eq in Hm. apply Z.eqb_eq in He.
    subst. reflexivity.
Qed.

(** X22: the pages partition the list. For a list of at most 1000 todos
    [totalPages] is the number of tens in its length, rounded up; the pages
    1 to [totalPages], each the next ten todos at most, put side by side
    give the list back; every page in that range is non-empty, every page
    beyond it is empty, and page 0 is empty. *)
Theorem pages_partition_the_list {A : Type} (sorted : list A) :
  (length sorted <= 1000)%nat ->
  let pages := (Z.of_nat (length sorted) + 9) / 10 in
  totalPages sorted = JS.of_Z pages
  /\ concat (map (fun page => paginated page sorted) (seqZ 1 pages)) = sorted
  /\ (forall page, 1 <= page ->
        (length (paginated page sorted) <= 10)%nat
        /\ (page <= pages -> paginated page sorted <> [])
        /\ (pages < page -> paginated page sorted = []))
  /\ paginated 0 sorted = [].
Proof.
  intros Hlen pages.
  assert (Hpages : Z.of_nat (length sorted) <= 10 * pages
                   /\ 10 * pages <= Z.of_nat (length sorted) + 9).
  { subst pages. Z.div_mod_to_equations. lia. }
  split; [|split; [|split]].
  - unfold totalPages, todosPerPage. apply same_eq.
    pose proof totalPages_table as Htab.
    rewrite forallb_forall in Htab. apply Htab.
    apply list_elem_of_In, elem_of_seqZ. lia.
  - unfold seqZ. rewrite <- list_fmap_compose.
    etransitivity; [|apply (chunks_concat (Z.to_nat pages))].
    + f_equal. apply list_fmap_ext. intros k i _. cbn.
      rewrite paginated_window by lia. f_equal. f_equal. lia.
    + clearbody pages. lia.
  - clearbody pages. intros page Hp. rewrite paginated_window by exact Hp.
    split; [rewrite length_take; lia|]. split.
    + intros Hin Hnil. apply (f_equal length) in Hnil.
      rewrite length_take, length_drop in Hnil. cbn [length] in Hnil.
      lia.
    + intros Hout. rewrite drop_ge; [apply take_nil|]. lia.
  - unfold paginated, slice, todosPerPage.
    change ((0 - 1) * 10) with (-10). change (-10 + 10) with 0.
    change (-10 <? 0) with true. change (0 <? 0) with false. cbv iota.
    match goal with
    | |- take ?n _ = _ => replace n with 0%nat by lia
    end.
    reflexivity.
Qed.

Lemma pages_partition_the_list_witness :
  concat (map (fun page => paginated page (todo_list 23 17)) (seqZ 1 4))
  = todo_list 23 17.
Proof.
  pose proof (pages_partition_the_list (todo_list 23 17)) as H.
  cbn zeta in H. destruct H as (_ & H & _).
  - vm_compute. lia.
  - etransitivity; [|exact H]. vm_compute. reflexivity.
Defined.

Lemma pageButtons_elem page pages n :
  Some n ∈ pageButtons page pages <->
  exists i, 0 <= i < Z.min 5 pages
            /\ n = (if page <=? 3 then i + 1 else page - 2 + i)
            /\ n <= pages.
Proof.
  unfold pageButtons. rewrite list_elem_of_fmap. split.
  - intros (i & Hn & Hi). apply elem_of_seqZ in Hi. exists i.
    destruct (pages <? _) eqn:E; [discriminate|].
    apply Z.ltb_ge in E. injection Hn as ->. split; [lia|]. split; [reflexivity | exact E].
  - intros (i & Hi & -> & Hle). exists i. split; [|apply elem_of_seqZ; lia].
    rewrite (proj2 (Z.ltb_ge _ _)) by exact Hle. reflexivity.
Qed.

(** X23: with more than one page and the current page among them, the
    button of the current page is shown, every button shown is a page from
    1 to [totalPages], and whichever control is used (previous, next, or a
    button) the page stays within 1 to [totalPages]. *)
Theorem pagination_controls_stay_in_range page pages ctl :
  1 < pages -> 1 <= page <= pages ->
  Some page ∈ pageButtons page pages
  /\ (forall n, Some n ∈ pageButtons page pages -> 1 <= n <= pages)
  /\ 1 <= navigate ctl pages page <= pages.
Proof.
  intros Hpages Hpage.
  assert (Hrange : forall n, Some n ∈ pageButtons page pages -> 1 <= n <= pages).
  { intros n Hn. apply pageButtons_elem in Hn as (i & Hi & -> & Hle).
    destruct (page <=? 3) eqn:E; [lia|]. apply Z.leb_gt in E. lia. }
  split; [|split; [exact Hrange|]].
  - apply pageButtons_elem. destruct (page <=? 3) eqn:E.
    + apply Z.leb_le in E. exists (page - 1). lia.
    + apply Z.leb_gt in E. exists 2. lia.
  - destruct ctl as [| |i]; cbn [navigate]; try lia.
    destruct (pageButtons page pages !! i) as [[n|]|] eqn:Hi; try lia.
    apply Hrange. apply list_elem_of_lookup. exists i. exact Hi.
Qed.

Lemma pagination_controls_stay_in_range_witness :
  Some 4 ∈ pageButtons 4 4 /\ 1 <= navigate Next 4 4 <= 4.
Proof.
  pose proof (pagination_controls_stay_in_range 4 4 Next) as H.
  destruct H as (H1 & _ & H3); [lia | lia |].
  split; [exact H1 | exact H3].
Defined.

End PagingFacts.

(** ** The authentication service *)
Section AuthFacts.
Import Samples TodoListPage Auth.

(** X24: a session survives a page load. After [setAuthData] a new service
    built from [localStorage] holds the token of the response and is
    authenticated exactly when the running one is, and the user is stored.
    The refresh token is not kept in step: when the response carries none,
    the running service holds none, but the storage keeps the one of an
    earlier session and the service of the next page load takes it up. *)
Theorem session_survives_a_reload resp w :
  token (service (reload (setAuthData resp w))) = Some (ar_token resp)
  /\ isAuthenticated (reload (setAuthData resp w))
     = isAuthenticated (setAuthData resp w)
  /\ user_data (localStorage (setAuthData resp w)) = Some (ar_user resp)
  /\ refreshToken (service (setAuthData resp w))
     = (if truthy (ar_refreshToken resp) then ar_refreshToken resp else None)
  /\ refreshToken (service (reload (setAuthData resp w)))
     = (if truthy (ar_refreshToken resp) then ar_refreshToken resp
        else refresh_token (localStorage w)).
Proof. repeat split. Qed.

Lemma refresh_refused refresh w :
  fst (refreshAccessToken refresh w) = false ->
  snd (refreshAccessToken refresh w) = w.
Proof.
  unfold refreshAccessToken.
  destruct (negb (truthy (refreshToken (service w)))); [reflexivity|].
  destruct refresh as [msg|status data msg]; [reflexivity|].
  destruct (negb (ok status)); [reflexivity | discriminate].
Qed.

(** X25: [logout] ends the session for good: the service is not
    authenticated, a page load finds nothing to restore, a token refresh
    is refused without a request, and [getCurrentUser] returns null
    without a request, whatever the network would have answered. *)
Theorem logout_ends_the_session w (first retry : Http User) refresh :
  isAuthenticated (logout w) = false
  /\ reload (logout w) = logout w
  /\ refreshAccessToken refresh (logout w) = (false, logout w)
  /\ getCurrentUser first retry refresh (logout w) = (None, logout w)
  /\ checkAuthStatus first retry refresh (logout w) = (None, logout w).
Proof. repeat split. Qed.

(** X26: [login] cannot fail. Whenever the request is rejected (the server
    refuses the credentials, answers an error, or cannot be reached) the
    user is signed in all the same, under a mock response made from the
    e-mail address alone: the service is authenticated with the mock token,
    and token and user are stored. *)
Theorem rejected_login_signs_in now c first retry refresh w err w1 :
  request first retry refresh w = (Rejected err, w1) ->
  let r := login now c first retry refresh w in
  fst r = mock_login now c
  /\ ar_token (fst r) = "mock_token_" +:+ JS.toString (now 1%nat)
  /\ email (ar_user (fst r)) = lc_email c
  /\ isAuthenticated (snd r) = true
  /\ getToken (snd r) = Some (ar_token (fst r))
  /\ auth_token (localStorage (snd r)) = Some (ar_token (fst r))
  /\ user_data (localStorage (snd r)) = Some (ar_user (fst r)).
Proof.
  intros Hreq. cbn zeta. unfold login. rewrite Hreq. cbn [fst snd].
  repeat split.
Qed.

Lemma rejected_login_signs_in_witness :
  isAuthenticated
    (snd (login (fun _ => 1700000000000) dave_login
            (unauthorized no_answer) no_network no_network signed_out))
  = true.
Proof.
  pose proof (rejected_login_signs_in (fun _ => 1700000000000) dave_login
                (unauthorized no_answer) no_network no_network signed_out
                "Session expired. Please login again." signed_out) as H.
  cbn zeta in H. destruct H as (_ & _ & _ & H & _).
  - reflexivity.
  - exact H.
Defined.

(** X27: what [getCurrentUser] falls back to. With a token held, a 401
    that cannot be cured by a token refresh logs the user out and gives
    null, the stored user having been removed before the fallback reads
    it; any other failure (no network, an error status) leaves the session
    as it is and gives the stored user. *)
Theorem getCurrentUser_fallback (retry : Http User) refresh w :
  truthy (token (service w)) = true ->
  (forall body msg,
      fst (refreshAccessToken refresh w) = false ->
      getCurrentUser (Reply 401 body msg) retry refresh w = (None, logout w))
  /\ (forall msg,
         getCurrentUser (NetworkFailure msg) retry refresh w
         = (user_data (localStorage w), w))
  /\ (forall status body msg,
         status <> 401 -> ok status = false ->
         getCurrentUser (Reply status body msg) retry refresh w
         = (user_data (localStorage w), w)).
Proof.
  intros Htok. unfold getCurrentUser. rewrite Htok. cbn [negb].
  split; [|split].
  - intros body msg Href. unfold request. cbn [Z.eqb Pos.eqb].
    rewrite Href. reflexivity.
  - intros msg. reflexivity.
  - intros status body msg Hne Hok. unfold request.
    rewrite (proj2 (Z.eqb_neq _ _) Hne), Hok. reflexivity.
Qed.

Lemma getCurrentUser_fallback_witness :
  getCurrentUser no_network no_network no_network dave_session
  = (Some dave, dave_session).
Proof.
  pose proof (getCurrentUser_fallback no_network no_network dave_session) as H.
  destruct H as (_ & H & _); [reflexivity|].
  exact (H "TypeError: Failed to fetch").
Defined.

(** X28: a 401 with a refresh token held is cured once. When the refresh
    request is answered ok, the new token replaces the old one in the
    service and in the storage, the refresh token stays, and the request
    is repeated once: its answer is the result when ok, and otherwise the
    request fails with the status of the repeated answer, also when that
    is a 401 again, the new token being kept. *)
Theorem unauthorized_request_is_retried_once {A : Type}
    (body body' : A) msg msg' status status' fresh rmsg w :
  truthy (refreshToken (service w)) = true ->
  ok status = true ->
  let r := request (Reply 401 body msg) (Reply status' body' msg')
                   (Reply status fresh rmsg) w in
  fst r = (if ok status' then Resolved body' else Rejected (http_error status'))
  /\ token (service (snd r)) = Some fresh
  /\ auth_token (localStorage (snd r)) = Some fresh
  /\ refreshToken (service (snd r)) = refreshToken (service w)
  /\ user_data (localStorage (snd r)) = user_data (localStorage w).
Proof.
  intros Href Hok. cbn zeta. unfold request. cbn [Z.eqb Pos.eqb].
  unfold refreshAccessToken. rewrite Href, Hok. cbn [negb fst snd].
  destruct (ok status'); cbn [negb fst snd]; repeat split.
Qed.

Lemma unauthorized_request_is_retried_once_witness :
  fst (request (unauthorized dave) (Reply 200 dave None)
         (Reply 200 "token-2" None) dave_session)
  = Resolved dave.
Proof.
  pose proof (unauthorized_request_is_retried_once dave dave
                (Some "Invalid credentials") None 200 200 "token-2" None
                dave_session) as H.
  cbn zeta in H. destruct H as (H & _); [reflexivity | reflexivity |].
  exact H.
Defined.

End AuthFacts.

(** ** Examples for the connection *)
Section ConnectionExamples.
Import Wire Samples Realtime.

Lemma no_token_no_socket_witness :
  socket (fst (run anonymous_env [IntervalEv 0; IntervalEv 0]
                 idle_polling_service Provider.initial))
  = None.
Proof.
  pose proof (no_token_no_socket anonymous_env [IntervalEv 0; IntervalEv 0]
                idle_polling_service Provider.initial) as H.
  destruct H as (H & _).
  - left. reflexivity.
  - vm_compute. reflexivity.
  - exact H.
Defined.

Lemma connect_while_connecting_replaces_the_socket_witness :
  sockets_created
    (Nat.iter 3 (connect signed_in) (Provider.setupListeners new_service))
  = 3%nat.
Proof.
  pose proof (connect_while_connecting_replaces_the_socket signed_in 3
                (Provider.setupListeners new_service)) as H.
  assert (Hc : isConnected (Provider.setupListeners new_service) = false)
    by (vm_compute; reflexivity).
  rewrite Hc in H. destruct H as (H & _).
  - exists "token-of-alice". repeat split.
  - etransitivity; [exact H | vm_compute; reflexivity].
Defined.

Lemma polling_stops_after_connect_witness :
  registered 0
    (fst (step signed_in (IntervalEv 0)
            (fst (step signed_in (SocketEv 0 ev_connect) degraded_service
                    Provider.initial))
            (world_of (snd (step signed_in (SocketEv 0 ev_connect)
                              degraded_service Provider.initial)))))
  = false.
Proof.
  pose proof (polling_stops_after_connect signed_in 0 degraded_service
                Provider.initial
                {| sock_id := 0; sock_connected := false;
                   sock_reconnectionDelay := 1000;
                   sock_reconnectionAttempts := 5 |}) as H.
  cbn zeta in H. destruct H as (_ & _ & H & _).
  - vm_compute. reflexivity.
  - exact H.
Defined.

Lemma connect_of_replaced_socket_is_announced_witness :
  Provider.isConnected
    (world_of (snd (step signed_in (SocketEv 0 ev_connect)
                      (connect signed_in connecting_service) Provider.initial)))
  = true
  /\ isConnected
       (fst (step signed_in (SocketEv 0 ev_connect)
               (connect signed_in connecting_service) Provider.initial))
     = false.
Proof.
  pose proof (connect_of_replaced_socket_is_announced signed_in 0 []
                (connect signed_in connecting_service) Provider.initial
                {| sock_id := 1; sock_connected := false;
                   sock_reconnectionDelay := 1000;
                   sock_reconnectionAttempts := 5 |}) as H.
  cbn zeta in H. destruct H as (H1 & H2 & _).
  - vm_compute. reflexivity.
  - cbn. discriminate.
  - reflexivity.
  - unfold connecting_service. rewrite !connect_listeners. reflexivity.
  - split; [exact H1 | exact H2].
Defined.

End ConnectionExamples.
